(** * The MRChem harness of QCEngine ([qcengine/programs/mrchem.py])

    A shallow embedding of [MRChemHarness]: [found], [get_version],
    [compute] and [build_input], with the Python values they handle, the
    exceptions they raise and the process state they change, followed by
    the properties of the harness. *)

From Stdlib Require Import ZArith String Ascii List Bool Lia DecimalString.
From Stdlib Require Import Floats.PrimFloat Floats.SpecFloat Floats.FloatOps.
From stdpp Require Import base option list strings gmap.

Set Warnings "-register-all".
Local Open Scope string_scope.
Local Open Scope Z_scope.
Local Open Scope list_scope.

(** ** Python values *)

(** The values [json.loads] returns, which are also the values of the
    keyword dictionaries: [None], [bool], [int], [float], [str], [list]
    and [dict] with string keys. A [float] is a binary64 number; a [str]
    is the sequence of its characters, one byte each (ASCII text). *)
Inductive json :=
| JNull
| JBool (b : bool)
| JInt (z : Z)
| JFloat (f : float)
| JStr (s : string)
| JArr (l : list json)
| JObj (m : gmap string json).

(** The exceptions that leave the harness. *)
Inductive exn :=
| ModuleNotFoundError (command msg : string)
| TimeoutExpired (cmd : list string)
| IndexError
| KeyError (key : string)
| TypeError (msg : string)
| ValueError (msg : string)
| OverflowError
| UnboundLocalError (name : string)
| ImportError (name : string)
| OSError (path : string)
| JSONDecodeError
| RuntimeError (msg : string)
| InputError (msg : string)
| RandomError (msg : option string)
| UnknownError (msg : option string).

(** A computation that returns or raises. *)
Definition res (A : Type) : Type := (exn + A)%type.

Definition ok {A} (x : A) : res A := inr x.
Definition raise {A} (e : exn) : res A := inl e.

Definition rbind {A B} (c : res A) (k : A -> res B) : res B :=
  match c with
  | inl e => inl e
  | inr x => k x
  end.

Notation "'let*' x ':=' c 'in' k" := (rbind c (fun x => k))
  (at level 10, x pattern, c at level 100, k at level 200).

(** Whether a computation returned. *)
Definition is_ok {A} (c : res A) : bool :=
  match c with
  | inr _ => true
  | inl _ => false
  end.

(** ** Strings *)

Module PyStr.

(** [needle in hay] for two [str]. *)
Fixpoint contains (needle hay : string) : bool :=
  String.prefix needle hay ||
  match hay with
  | EmptyString => false
  | String _ rest => contains needle rest
  end.

(** The characters [str.split()] separates on (the ASCII ones). *)
Definition is_space (c : ascii) : bool :=
  let n := nat_of_ascii c in
  ((9 <=? n)%nat && (n <=? 13)%nat) || ((28 <=? n)%nat && (n <=? 32)%nat).

Fixpoint split_from (tok s : string) : list string :=
  match s with
  | EmptyString => if String.eqb tok "" then [] else [tok]
  | String c rest =>
      if is_space c
      then (if String.eqb tok "" then split_from "" rest
            else tok :: split_from "" rest)
      else split_from (tok +:+ String c "") rest
  end.

(** [s.split()]: the maximal runs of non-blank characters. *)
Definition split (s : string) : list string := split_from "" s.

(** [sep.join(l)]. *)
Definition join (sep : string) (l : list string) : string :=
  String.concat sep l.

(** [str(n)] for a natural number [n]. *)
Definition of_nat (n : nat) : string :=
  DecimalString.NilZero.string_of_uint (Nat.to_uint n).

Fixpoint spaces (n : nat) : string :=
  match n with
  | O => ""
  | S k => String " " (spaces k)
  end.

(** ["{:{width}}".format(s, width=width)]: left-justified, never cut. *)
Definition ljust (width : nat) (s : string) : string :=
  s +:+ spaces (width - String.length s).

(** [tmpl.format(elem=elem)] for a template whose only replacement
    field is [{elem}]. *)
Fixpoint format_go (skip : nat) (tmpl elem : string) : string :=
  match tmpl with
  | EmptyString => ""
  | String c rest =>
      match skip with
      | S k => format_go k rest elem
      | O =>
          if String.prefix "{elem}" tmpl
          then elem +:+ format_go 5 rest elem
          else String c (format_go 0 rest elem)
      end
  end.

Definition format_elem (tmpl elem : string) : string := format_go 0 tmpl elem.

Definition newline : ascii := ascii_of_nat 10.

Fixpoint has_newline (s : string) : bool :=
  match s with
  | EmptyString => false
  | String c rest => Ascii.eqb c newline || has_newline rest
  end.

(** The lines of a text, cut at every line feed. *)
Fixpoint lines_from (cur s : string) : list string :=
  match s with
  | EmptyString => [cur]
  | String c rest =>
      if Ascii.eqb c newline then cur :: lines_from "" rest
      else lines_from (cur +:+ String c "") rest
  end.

(** [s.split("\n")], with the empty text holding no line. *)
Definition lines (s : string) : list string :=
  match s with
  | EmptyString => []
  | _ => lines_from "" s
  end.

End PyStr.

(** ** Operations on values *)

Module Py.

(** [l[-1]]. *)
Definition last_item {A} (l : list A) : res A :=
  match last l with
  | Some x => ok x
  | None => raise IndexError
  end.

(** [v[k]] for a string key [k]. *)
Definition getitem (v : json) (k : string) : res json :=
  match v with
  | JObj m =>
      match m !! k with
      | Some x => ok x
      | None => raise (KeyError k)
      end
  | JArr _ => raise (TypeError "list indices must be integers or slices, not str")
  | JStr _ => raise (TypeError "string indices must be integers")
  | _ => raise (TypeError "object is not subscriptable")
  end.

(** [v[k] = x] for a string key [k]; the updated [v]. *)
Definition setitem (v : json) (k : string) (x : json) : res json :=
  match v with
  | JObj m => ok (JObj (<[k := x]> m))
  | JArr _ => raise (TypeError "list indices must be integers or slices, not str")
  | _ => raise (TypeError "object does not support item assignment")
  end.

(** [len(v)]. *)
Definition len (v : json) : res Z :=
  match v with
  | JStr s => ok (Z.of_nat (String.length s))
  | JArr l => ok (Z.of_nat (length l))
  | JObj m => ok (Z.of_nat (size m))
  | _ => raise (TypeError "object has no len()")
  end.

(** [float(z)] for an [int]: the nearest double, or [OverflowError]. *)
Definition float_of_int (z : Z) : res float :=
  let f := SF2Prim (binary_normalize prec emax z 0 false) in
  if PrimFloat.is_infinity f then raise OverflowError else ok f.

(** [int(f)] for a [float]: truncation towards zero. *)
Definition int_of_float (f : float) : res Z :=
  match Prim2SF f with
  | S754_zero _ => ok 0
  | S754_finite s m e =>
      let a := if (0 <=? e) then Z.shiftl (Z.pos m) e else Z.shiftr (Z.pos m) (- e) in
      ok (if s then - a else a)
  | S754_infinity _ => raise OverflowError
  | S754_nan => raise (ValueError "cannot convert float NaN to integer")
  end.

Inductive number := NInt (z : Z) | NFloat (f : float).

Definition as_number (v : json) : option number :=
  match v with
  | JBool b => Some (NInt (if b then 1 else 0))
  | JInt z => Some (NInt z)
  | JFloat f => Some (NFloat f)
  | _ => None
  end.

(** [x + y]. *)
Definition add (x y : json) : res json :=
  match as_number x, as_number y with
  | Some (NInt a), Some (NInt b) => ok (JInt (a + b))
  | Some (NFloat a), Some (NFloat b) => ok (JFloat (PrimFloat.add a b))
  | Some (NInt a), Some (NFloat b) =>
      let* a' := float_of_int a in ok (JFloat (PrimFloat.add a' b))
  | Some (NFloat a), Some (NInt b) =>
      let* b' := float_of_int b in ok (JFloat (PrimFloat.add a b'))
  | _, _ =>
      match x, y with
      | JStr a, JStr b => ok (JStr (a +:+ b))
      | JArr a, JArr b => ok (JArr (a ++ b))
      | _, _ => raise (TypeError "unsupported operand type(s) for +")
      end
  end.

Definition hashable (v : json) : bool :=
  match v with
  | JArr _ | JObj _ => false
  | _ => true
  end.

Definition chars (s : string) : list json :=
  map (fun c => JStr (String c "")) (list_ascii_of_string s).

Definition is_str (k : string) (v : json) : bool :=
  match v with
  | JStr s => String.eqb s k
  | _ => false
  end.

(** How often the string [k] is among the elements [l]. *)
Definition count (l : list json) (k : string) : Z :=
  Z.of_nat (length (filter (fun v => is_str k v = true) l)).

(** [Counter(v)], given by its lookup [occs[k]] for a string key [k]. The
    elements of a [list] and the characters of a [str] are tallied, and a
    key that never came up has the count 0; [Counter(None)] is empty; the
    items of a [dict] are taken over with their values as they are. *)
Definition Counter (v : json) : res (string -> json) :=
  match v with
  | JNull => ok (fun _ => JInt 0)
  | JArr l =>
      if forallb hashable l then ok (fun k => JInt (count l k))
      else raise (TypeError "unhashable type")
  | JStr s => ok (fun k => JInt (count (chars s) k))
  | JObj m => ok (fun k => default (JInt 0) (m !! k))
  | _ => raise (TypeError "object is not iterable")
  end.

(** [needle in hay] where [hay] is a [str] or [None]. *)
Definition contains (needle : string) (hay : option string) : res bool :=
  match hay with
  | Some s => ok (PyStr.contains needle s)
  | None => raise (TypeError "argument of type 'NoneType' is not iterable")
  end.

(** The index of the first [None] among [words], counted from [i]. *)
Fixpoint first_none (i : nat) (words : list (option string)) : option nat :=
  match words with
  | [] => None
  | None :: _ => Some i
  | Some _ :: rest => first_none (S i) rest
  end.

(** [sep.join(words)] for a list whose items are [str] or [None]. *)
Definition join_words (sep : string) (words : list (option string)) : res string :=
  match first_none 0 words with
  | Some i =>
      raise (TypeError ("sequence item " +:+ PyStr.of_nat i +:+
                        ": expected str instance, NoneType found"))
  | None => ok (PyStr.join sep (omap id words))
  end.

(** [v is False]. *)
Definition is_False (v : json) : bool :=
  match v with
  | JBool false => true
  | _ => false
  end.

End Py.

(** ** The data the harness exchanges *)

(** [qcelemental]'s task configuration (the fields the harness reads). *)
Record TaskConfig := {
  scratch_directory : option string;
  memory : float;
  use_mpiexec : bool;
  ncores : Z;
  nnodes : Z;
}.

Record Model := {
  method : string;
  basis : option string;
}.

(** One atom of a molecule: its element symbol, whether it is real (not a
    ghost), its mass and its Cartesian coordinates. *)
Record Atom := {
  elem : string;
  real : bool;
  mass : float;
  xyz : float * float * float;
}.

(** A molecule of [qcelemental]. The record [molrec] that
    [from_schema(molecule.dict(), nonphysical=True)] makes of it holds the
    same fields. *)
Record Molecule := {
  atoms : list Atom;
  molecular_charge : float;
  molecular_multiplicity : Z;
  fix_com : bool;
}.

(** [molecule.masses]: one mass per atom. *)
Definition masses (mol : Molecule) : list float := map mass (atoms mol).

Record AtomicInput := {
  driver : string;
  model : Model;
  molecule : Molecule;
  keywords : gmap string json;
}.

(** What [execute] hands back besides its success flag: [output["stdout"]],
    [output["stderr"]] and [output["outfiles"]["data.json"]], which is
    [None] when the program left no such file. *)
Record ExecOutput := {
  stdout : string;
  stderr : string;
  outfile_data_json : option string;
}.

(** The dictionary [build_input] returns. A command word is [None] where
    [which] found no executable. *)
Record MRChemRec := {
  rec_scratch_directory : option string;
  folders : list json;
  mrchem_json : json;
  command : list (option string);
}.

(** The dictionary [output_data], whose items are the arguments of
    [AtomicResult]; an item that was not set is [None] here. *)
Record OutputData := {
  od_keywords : json;
  od_schema_name : string;
  od_schema_version : Z;
  od_model : Model;
  od_molecule : Molecule;
  od_properties : gmap string json;
  od_stdout : option string;
  od_success : option json;
  od_driver : option string;
  od_return_result : option json;
  od_stderr : option string;
  od_error : option (gmap string json);
  od_provenance : option json;
}.

(** ** The host *)

(** The collaborators of the harness that live outside [mrchem.py]. *)
Record Host := {
  (** [qcelemental.util.which(command)]: the resolved path, if any. *)
  which : string -> option string;
  (** [popen(args)] followed by [wait(timeout=30)]: the captured standard
      output, or [None] when the wait timed out. *)
  popen : list string -> option string;
  (** [qcelemental.util.safe_version]. *)
  safe_version : string -> string;
  (** Whether [from mrchem import validate, translate_input] succeeds with
      the given [sys.path]. *)
  mrchem_importable : list string -> bool;
  (** [mrchem.validate(ir_in=opts)]: the validated options, or the text of
      the exception it raised. *)
  validate : json -> string + json;
  (** [mrchem.translate_input(opts)], likewise. *)
  translate_input : json -> string + json;
  create_mpi_invocation : option string -> TaskConfig -> list (option string);
  (** The directory [temporary_directory] creates under [parent]. *)
  temporary_directory : option string -> string;
  (** Whether [Path(d).mkdir()] succeeds. *)
  can_mkdir : string -> bool;
  (** [execute(command, infiles={"data.json": text}, outfiles=["data.json"],
      scratch_directory=tmpdir)]. *)
  execute : list (option string) -> string -> string -> bool * ExecOutput;
  json_dumps : json -> string;
  (** [json.loads], [None] when it raises [JSONDecodeError]. *)
  json_loads : string -> option json;
  (** The builtin [round(x, 3)] on a [float]. *)
  round3 : float -> float;
  (** How [_atoms_formatter], called with [width] and [prec], renders one
      Cartesian coordinate: a right-justified fixed-point format. *)
  fxyz : nat -> nat -> float -> string;
}.

(** ** The process *)

(** The state of the interpreter the harness runs in: the class attribute
    [version_cache], [sys.path], the commands spawned so far (oldest
    first) and the directories that exist. *)
Record Proc := {
  version_cache : gmap string string;
  sys_path : list string;
  spawned : list (list (option string));
  dirs : gset string;
}.

Definition set_version_cache (c : gmap string string) (p : Proc) : Proc :=
  {| version_cache := c; sys_path := sys_path p;
     spawned := spawned p; dirs := dirs p |}.

Definition set_sys_path (l : list string) (p : Proc) : Proc :=
  {| version_cache := version_cache p; sys_path := l;
     spawned := spawned p; dirs := dirs p |}.

Definition set_spawned (l : list (list (option string))) (p : Proc) : Proc :=
  {| version_cache := version_cache p; sys_path := sys_path p;
     spawned := l; dirs := dirs p |}.

Definition set_dirs (d : gset string) (p : Proc) : Proc :=
  {| version_cache := version_cache p; sys_path := sys_path p;
     spawned := spawned p; dirs := d |}.

(** A computation in the process: it returns or raises, and either way
    leaves the process in a new state. *)
Definition M (A : Type) : Type := Proc -> res A * Proc.

Definition ret {A} (x : A) : M A := fun p => (ok x, p).
Definition throw {A} (e : exn) : M A := fun p => (raise e, p).
Definition lift {A} (c : res A) : M A := fun p => (c, p).

Definition bind {A B} (c : M A) (k : A -> M B) : M B :=
  fun p =>
    match c p with
    | (inl e, p') => (inl e, p')
    | (inr x, p') => k x p'
    end.

Definition get : M Proc := fun p => (ok p, p).
Definition modify (f : Proc -> Proc) : M unit := fun p => (ok tt, f p).

Notation "'do' x '<-' c ';' k" := (bind c (fun x => k))
  (at level 10, x pattern, c at level 100, k at level 200).
Notation "'run' c ';' k" := (bind c (fun _ => k))
  (at level 10, c at level 100, k at level 200).

(** [with popen(args) as exc: exc["proc"].wait(timeout=30)], then
    [exc["stdout"]]. A command with [None] for a word cannot be spawned. *)
Definition popen_wait (h : Host) (args : list (option string)) : M string :=
  match mapM id args with
  | None => throw (TypeError "expected str, bytes or os.PathLike object, not NoneType")
  | Some words =>
      run modify (fun p => set_spawned (spawned p ++ [args]) p);
      match popen h words with
      | Some out => ret out
      | None => throw (TimeoutExpired words)
      end
  end.

(** ** [MRChemHarness] *)

Definition install_msg : string :=
  "Please install via https://mrchem.readthedocs.io".

(** [which(command, return_bool=True, raise_error=raise_error,
    raise_msg=raise_msg)]. *)
Definition which_bool (h : Host) (command : string) (raise_error : bool)
    (raise_msg : string) : res bool :=
  match which h command with
  | Some _ => ok true
  | None =>
      if raise_error then raise (ModuleNotFoundError command raise_msg)
      else ok false
  end.

Definition found (h : Host) (raise_error : bool) : res bool :=
  let* mrchem_x := which_bool h "mrchem.x" raise_error install_msg in
  let* mrchem := which_bool h "mrchem" raise_error install_msg in
  ok (mrchem && mrchem_x).

(** [version_cache[which_prog]], if there. *)
Definition cache_lookup (which_prog : option string) (p : Proc) : option string :=
  match which_prog with
  | Some path => version_cache p !! path
  | None => None
  end.

Definition get_version (h : Host) : M string :=
  run lift (found h true);
  let which_prog := which h "mrchem.x" in
  do p <- get;
  run (match cache_lookup which_prog p with
       | Some _ => ret tt
       | None =>
           do out <- popen_wait h [which_prog; Some "--version"];
           do tok <- lift (Py.last_item (PyStr.split out));
           match which_prog with
           | Some path =>
               modify (fun p =>
                 set_version_cache (<[path := safe_version h tok]> (version_cache p)) p)
           | None => ret tt (* not reached: [popen_wait] has raised *)
           end
       end);
  do p <- get;
  match cache_lookup which_prog p with
  | Some candidate_version => ret candidate_version
  | None => throw (KeyError "which_prog")
  end.

(** *** [build_input] *)

Definition atom_format : string := "{elem}".
Definition ghost_format : string := "@{elem}".

(** Modelled from the spec: [_atoms_formatter] of
    [qcelemental.molparse.to_string] is not under src/. One line per atom:
    the element symbol through [atom_format], or through [ghost_format]
    for a ghost atom, left-justified in [width] columns, then the three
    Cartesian coordinates at fixed width and precision, [sp] blanks
    between the fields. *)
Definition _atoms_formatter (h : Host) (molrec : Molecule)
    (atom_format ghost_format : string) (width prec sp : nat) : list string :=
  map (fun a =>
         let nuc := PyStr.ljust width
                      (PyStr.format_elem
                         (if real a then atom_format else ghost_format) (elem a)) in
         let '(x, y, z) := xyz a in
         PyStr.join (PyStr.spaces sp)
           (nuc :: map (fxyz h width prec) [x; y; z]))
      (atoms molrec).

(** The text of [opts["Molecule"]["coords"]]. *)
Definition coords (h : Host) (molrec : Molecule) : string :=
  PyStr.join (String PyStr.newline "")
    (_atoms_formatter h molrec atom_format ghost_format 7 12 2).

Definition input_error (msg : string) : exn :=
  InputError ("Failure preparing input to MRChem" +:+ String PyStr.newline " " +:+ msg).

(** [v[a][b]]. *)
Definition getitem2 (v : json) (a b : string) : res json :=
  let* x := Py.getitem v a in Py.getitem x b.

(** The options handed to [validate]: a copy of the job's keywords with
    the [Molecule] block and the method of the [WaveFunction] block. *)
Definition job_opts (h : Host) (input_model : AtomicInput) : res (gmap string json) :=
  let opts := keywords input_model in
  let molrec := molecule input_model in
  let text := coords h molrec in
  let* charge := Py.int_of_float (molecular_charge molrec) in
  let opts :=
    <["Molecule" :=
        JObj (<["charge" := JInt charge]>
             (<["multiplicity" := JInt (molecular_multiplicity molrec)]>
             (<["translate" := JBool (fix_com molrec)]>
             (<["coords" := JStr text]> ∅))))]> opts in
  match opts !! "WaveFunction" with
  | Some wf =>
      let* wf' := Py.setitem wf "method" (JStr (method (model input_model))) in
      ok (<["WaveFunction" := wf']> opts)
  | None =>
      ok (<["WaveFunction" :=
              JObj (<["method" := JStr (method (model input_model))]> ∅)]> opts)
  end.

(** [build_input] from the copy of the keywords on: the validated and
    translated options, the folders and the command. The process is not
    touched any more. *)
Definition build_mrchemrec (h : Host) (input_model : AtomicInput)
    (config : TaskConfig) : res MRChemRec :=
  let* opts := job_opts h input_model in
  let* opts :=
    match validate h (JObj opts) with
    | inl msg => raise (input_error msg)
    | inr validated => ok validated
    end in
  let* d1 := getitem2 opts "SCF" "path_checkpoint" in
  let* d2 := getitem2 opts "SCF" "path_orbitals" in
  let* d3 := getitem2 opts "Response" "path_checkpoint" in
  let* d4 := getitem2 opts "Response" "path_orbitals" in
  let* d5 := getitem2 opts "Plotter" "path" in
  let folders := [d1; d2; d3; d4; d5] in
  let* opts :=
    match translate_input h opts with
    | inl msg => raise (input_error msg)
    | inr translated => ok translated
    end in
  let* printer := Py.getitem opts "printer" in
  let* printer' := Py.setitem printer "file_name" (JStr "data.inp") in
  let* opts := Py.setitem opts "printer" printer' in
  let* command :=
    if use_mpiexec config then
      let command := create_mpi_invocation h (which h "mrchem.x") config in
      (* the message handed to [logger.info] joins the words *)
      let* _ := Py.join_words " " command in
      ok command
    else ok [which h "mrchem.x"] in
  ok {| rec_scratch_directory := scratch_directory config;
        folders := folders;
        mrchem_json := JObj (<["input" := opts]> ∅);
        command := command |}.

Definition build_input (h : Host) (input_model : AtomicInput)
    (config : TaskConfig) : M MRChemRec :=
  do out <- popen_wait h [which h "mrchem"; Some "--module"];
  do module_path <- lift (Py.last_item (PyStr.split out));
  run modify (fun p => set_sys_path (sys_path p ++ [module_path]) p);
  do p <- get;
  run (if mrchem_importable h (sys_path p) then ret tt
       else throw (ImportError "mrchem"));
  lift (build_mrchemrec h input_model config).

(** *** [compute] *)

(** The local variables of [compute] that outlive the [with] block.
    [mrchem_output] is bound only once the native output was read. *)
Record Locals := {
  error_type : option string;
  error_message : option string;
  compute_success : json;
  output_data : OutputData;
  mrchem_output : option json;
}.

Definition set_output_data (od : OutputData) (st : Locals) : Locals :=
  {| error_type := error_type st; error_message := error_message st;
     compute_success := compute_success st; output_data := od;
     mrchem_output := mrchem_output st |}.

(** [for d in job_input["folders"]: if not Path(d).exists():
    Path(d).mkdir()]. *)
Fixpoint make_folders (h : Host) (ds : list json) : M unit :=
  match ds with
  | [] => ret tt
  | JStr d :: rest =>
      do p <- get;
      run (if decide (d ∈ dirs p) then ret tt
           else if can_mkdir h d
                then modify (fun p => set_dirs ({[d]} ∪ dirs p) p)
                else throw (OSError d));
      make_folders h rest
  | _ :: _ => throw (TypeError "expected str, bytes or os.PathLike object")
  end.

(** [mrchem_output["properties"]["scf_energy"][k]]. *)
Definition scf_energy (mrchem_output : json) (k : string) : res json :=
  let* props := Py.getitem mrchem_output "properties" in
  let* e := Py.getitem props "scf_energy" in
  Py.getitem e k.

(** [mrchem_output["properties"]["orbital_energies"][k]]. *)
Definition orbital_energies (mrchem_output : json) (k : string) : res json :=
  let* props := Py.getitem mrchem_output "properties" in
  let* e := Py.getitem props "orbital_energies" in
  Py.getitem e k.

(** [mrchem_output["properties"]["dipole_moment"]["dip-1"]["vector"]]. *)
Definition dipole_vector (mrchem_output : json) : res json :=
  let* props := Py.getitem mrchem_output "properties" in
  let* dm := Py.getitem props "dipole_moment" in
  let* dip := Py.getitem dm "dip-1" in
  Py.getitem dip "vector".

(** The dictionary display assigned to [output_data["properties"]], its
    items evaluated in the order they are written. *)
Definition fill_properties (input_model : AtomicInput) (mrchem_output : json)
    (occs : string -> json) : res (gmap string json) :=
  let* occupation := orbital_energies mrchem_output "occupation" in
  let* nmo := Py.len occupation in
  let* nalpha := Py.add (occs "p") (occs "a") in
  let* nbeta := Py.add (occs "p") (occs "b") in
  let natom := Z.of_nat (length (masses (molecule input_model))) in
  let* return_energy := scf_energy mrchem_output "E_tot" in
  let* e_kin := scf_energy mrchem_output "E_kin" in
  let* e_en := scf_energy mrchem_output "E_en" in
  let* one := Py.add e_kin e_en in
  let* e_next := scf_energy mrchem_output "E_next" in
  let* one := Py.add one e_next in
  let* e_eext := scf_energy mrchem_output "E_eext" in
  let* one := Py.add one e_eext in
  let* e_ee := scf_energy mrchem_output "E_ee" in
  let* e_x := scf_energy mrchem_output "E_x" in
  let* two := Py.add e_ee e_x in
  let* e_xc := scf_energy mrchem_output "E_xc" in
  let* two := Py.add two e_xc in
  let* e_nn := scf_energy mrchem_output "E_nn" in
  let* xc := scf_energy mrchem_output "E_xc" in
  let* total := scf_energy mrchem_output "E_tot" in
  let* calc := Py.getitem mrchem_output "scf_calculation" in
  let* solver := Py.getitem calc "scf_solver" in
  let* cycles := Py.getitem solver "cycles" in
  let* iterations := Py.len cycles in
  ok (<["calcinfo_nmo" := JInt nmo]>
     (<["calcinfo_nalpha" := nalpha]>
     (<["calcinfo_nbeta" := nbeta]>
     (<["calcinfo_natom" := JInt natom]>
     (<["return_energy" := return_energy]>
     (<["scf_one_electron_energy" := one]>
     (<["scf_two_electron_energy" := two]>
     (<["nuclear_repulsion_energy" := e_nn]>
     (<["scf_xc_energy" := xc]>
     (<["scf_total_energy" := total]>
     (<["scf_iterations" := JInt iterations]> ∅))))))))))).

(** [json.loads(output["outfiles"]["data.json"])["output"]]. *)
Definition read_output (h : Host) (output : ExecOutput) : res json :=
  match outfile_data_json output with
  | None => raise (TypeError "the JSON object must be str, bytes or bytearray, not NoneType")
  | Some text =>
      match json_loads h text with
      | None => raise JSONDecodeError
      | Some doc => Py.getitem doc "output"
      end
  end.

(** [output_data] with the items the successful branch sets. *)
Definition set_success_items (od : OutputData) (flag : json) (drv : string)
    (stdout_ : string) (props : gmap string json) (return_result : json) : OutputData :=
  {| od_keywords := od_keywords od; od_schema_name := od_schema_name od;
     od_schema_version := od_schema_version od; od_model := od_model od;
     od_molecule := od_molecule od; od_properties := props;
     od_stdout := Some stdout_; od_success := Some flag; od_driver := Some drv;
     od_return_result := Some return_result; od_stderr := od_stderr od;
     od_error := od_error od; od_provenance := od_provenance od |}.

(** [output_data] with the items the failed branch sets. *)
Definition set_failure_items (od : OutputData) (stderr_ : string) : OutputData :=
  {| od_keywords := od_keywords od; od_schema_name := od_schema_name od;
     od_schema_version := od_schema_version od; od_model := od_model od;
     od_molecule := od_molecule od; od_properties := od_properties od;
     od_stdout := od_stdout od; od_success := od_success od;
     od_driver := od_driver od; od_return_result := od_return_result od;
     od_stderr := Some stderr_;
     od_error :=
       Some (<["error_message" := JStr stderr_]>
            (<["error_type" := JStr "execution_error"]> ∅));
     od_provenance := od_provenance od |}.

(** The [if]/[elif]/[else] on the driver: the properties, with the dipole
    moment for the driver "properties", and [return_result]. *)
Definition fill_return_result (input_model : AtomicInput) (mrchem_output : json)
    (props : gmap string json) : res (gmap string json * json) :=
  if String.eqb (driver input_model) "energy" then
    let* e := scf_energy mrchem_output "E_tot" in ok (props, e)
  else if String.eqb (driver input_model) "properties" then
    let* v := dipole_vector mrchem_output in
    let* v' := dipole_vector mrchem_output in
    ok (<["scf_dipole_moment" := v']> props, v)
  else
    raise (RuntimeError
             ("MRChem cannot run with " +:+ driver input_model +:+ " driver")).

(** The first statements of the successful branch: the native output, its
    own success flag and the properties table. *)
Definition extract_properties (h : Host) (input_model : AtomicInput)
    (output : ExecOutput) : res (json * json * gmap string json) :=
  let* out := read_output h output in
  let* flag := Py.getitem out "success" in
  let* spin := orbital_energies out "spin" in
  let* occs := Py.Counter spin in
  let* props := fill_properties input_model out occs in
  ok (out, flag, props).

(** The [if success: ... else: ...] statement on the result of [execute]. *)
Definition normalize (h : Host) (input_model : AtomicInput) (st : Locals)
    (success : bool) (output : ExecOutput) : res Locals :=
  if success then
    let* extracted := extract_properties h input_model output in
    match extracted with
    | (out, flag, props) =>
        let* filled := fill_return_result input_model out props in
        let* compute_success := Py.getitem out "success" in
        ok {| error_type := error_type st; error_message := error_message st;
              compute_success := compute_success;
              output_data :=
                set_success_items (output_data st) flag (driver input_model)
                  (stdout output) (fst filled) (snd filled);
              mrchem_output := Some out |}
    end
  else
    ok (set_output_data (set_failure_items (output_data st) (stderr output)) st).

(** [if compute_success is False: ...], the dispatch of errors. *)
Definition dispatch (st : Locals) : res unit :=
  if Py.is_False (compute_success st) then
    let* a := Py.contains "SIGSEV" (error_message st) in
    let* b := if a then ok true else Py.contains "SIGSEGV" (error_message st) in
    let* c := if b then ok true
              else Py.contains "segmentation fault" (error_message st) in
    if c then raise (RandomError (error_message st))
    else raise (UnknownError (error_message st))
  else ok tt.

(** [output_data] as [compute] first builds it. *)
Definition initial_output_data (input_model : AtomicInput) (input_data : json)
    : OutputData :=
  {| od_keywords := input_data; od_schema_name := "qcschema_output";
     od_schema_version := 1; od_model := model input_model;
     od_molecule := molecule input_model; od_properties := ∅;
     od_stdout := None; od_success := None; od_driver := None;
     od_return_result := None; od_stderr := None; od_error := None;
     od_provenance := None |}.

(** The local variables when [execute] is called. *)
Definition initial_locals (input_model : AtomicInput) (job_input : MRChemRec)
    : Locals :=
  {| error_type := None; error_message := None; compute_success := JBool false;
     output_data := initial_output_data input_model (mrchem_json job_input);
     mrchem_output := None |}.

(** [compute] up to the return of [execute]: the execution plan and the
    raw result of running it. *)
Definition supervise (h : Host) (input_model : AtomicInput) (config : TaskConfig)
    : M (MRChemRec * (bool * ExecOutput)) :=
  run lift (found h true);
  let parent := scratch_directory config in
  do job_input <- build_input h input_model config;
  let tmpdir := temporary_directory h parent in
  run make_folders h (folders job_input);
  let cmd := command job_input ++ [Some "data.json"] in
  run modify (fun p => set_spawned (spawned p ++ [cmd]) p);
  ret (job_input, execute h cmd (json_dumps h (mrchem_json job_input)) tmpdir).

(** [compute] up to the end of the [with] block: the local variables the
    dispatch of errors starts from. *)
Definition compute_until_dispatch (h : Host) (input_model : AtomicInput)
    (config : TaskConfig) : M Locals :=
  do raw <- supervise h input_model config;
  lift (normalize h input_model (initial_locals input_model (fst raw))
          (fst (snd raw)) (snd (snd raw))).

(** The provenance of the result and the call of [AtomicResult], which is
    modelled by the arguments it is given. *)
Definition finish (h : Host) (config : TaskConfig) (st : Locals) : res OutputData :=
  match mrchem_output st with
  | None => raise (UnboundLocalError "mrchem_output")
  | Some out =>
      let od := output_data st in
      let* prov := Py.getitem out "provenance" in
      let* prov' := Py.setitem prov "memory" (JFloat (round3 h (memory config))) in
      ok {| od_keywords := od_keywords od; od_schema_name := od_schema_name od;
            od_schema_version := od_schema_version od; od_model := od_model od;
            od_molecule := od_molecule od; od_properties := od_properties od;
            od_stdout := od_stdout od; od_success := od_success od;
            od_driver := od_driver od; od_return_result := od_return_result od;
            od_stderr := od_stderr od; od_error := od_error od;
            od_provenance := Some prov' |}
  end.

Definition compute (h : Host) (input_model : AtomicInput) (config : TaskConfig)
    : M OutputData :=
  do st <- compute_until_dispatch h input_model config;
  run lift (dispatch st);
  lift (finish h config st).

(** ** What the properties speak of *)

(** How many times the version of the executable at [path] was queried. *)
Definition version_queries (path : string) (p : Proc) : nat :=
  length (filter (fun cmd => cmd = [Some path; Some "--version"]) (spawned p)).

Definition real_atoms (mol : Molecule) : list Atom :=
  filter (fun a => real a = true) (atoms mol).

Definition ghost_atoms (mol : Molecule) : list Atom :=
  filter (fun a => real a = false) (atoms mol).

(** Neither the element symbol of the atom nor its rendered coordinates
    hold a line feed. *)
Definition printable (h : Host) (a : Atom) : bool :=
  negb (PyStr.has_newline (elem a)) &&
  let '(x, y, z) := xyz a in
  forallb (fun c => negb (PyStr.has_newline (fxyz h 7 12 c))) [x; y; z].

(** The two errors the dispatch of errors classifies a failure into. *)
Definition classified (e : exn) : bool :=
  match e with
  | RandomError _ | UnknownError _ => true
  | _ => false
  end.

(** A computation that, when it raises, raises neither of them. *)
Definition rquiet {A} (c : res A) : Prop :=
  forall e, c = inl e -> classified e = false.

Definition quiet {A} (c : M A) : Prop :=
  forall p e p', c p = (inl e, p') -> classified e = false.

#[global] Instance ExecOutput_eq_dec : EqDecision ExecOutput.
Proof. solve_decision. Defined.

(** ** A host, a job and native outputs to run the harness on *)

Module Example.

Definition obj (items : list (string * json)) : json := JObj (list_to_map items).

(** A fixed-point rendering of a [float] with [prec] decimals, rounded
    half to even on the exact value. *)
Definition decimal (z : Z) : string :=
  DecimalString.NilZero.string_of_uint (N.to_uint (Z.to_N z)).

Fixpoint zeros (n : nat) : string :=
  match n with
  | O => ""
  | S k => String "0" (zeros k)
  end.

Definition fixed (prec : nat) (x : float) : string :=
  match Prim2SF x with
  | S754_nan => "nan"
  | S754_infinity s => if s then "-inf" else "inf"
  | S754_zero s =>
      (if s then "-0" else "0") +:+
      match prec with O => "" | _ => "." +:+ zeros prec end
  | S754_finite s m e =>
      let scale := 10 ^ Z.of_nat prec in
      let num := if 0 <=? e then Z.pos m * 2 ^ e * scale else Z.pos m * scale in
      let den := if 0 <=? e then 1 else 2 ^ (- e) in
      let q := num / den in
      let r := num mod den in
      let q := if 2 * r <? den then q
               else if den <? 2 * r then q + 1
               else if Z.even q then q else q + 1 in
      let frac := decimal (q mod scale) in
      (if s then "-" else "") +:+ decimal (q / scale) +:+
      match prec with
      | O => ""
      | _ => "." +:+ zeros (prec - String.length frac) +:+ frac
      end
  end.

Definition rjust (width : nat) (s : string) : string :=
  PyStr.spaces (width - String.length s) +:+ s.

Definition mrchem_path : string := "/opt/mrchem/bin/mrchem".
Definition mrchem_x_path : string := "/opt/mrchem/bin/mrchem.x".

Definition validated_paths : list (string * json) :=
  [("SCF", obj [("path_checkpoint", JStr "checkpoint");
                ("path_orbitals", JStr "orbitals")]);
   ("Response", obj [("path_checkpoint", JStr "checkpoint");
                     ("path_orbitals", JStr "orbitals")]);
   ("Plotter", obj [("path", JStr "plots")])].

(** A host with both executables installed, on which the program run
    yields [raw] and [json.loads] reads [doc] from any text. With
    [answers = false] the auxiliary queries time out. *)
Definition host (answers : bool) (raw : bool * ExecOutput) (doc : option json)
    : Host :=
  {| which := fun c =>
       if String.eqb c "mrchem" then Some mrchem_path
       else if String.eqb c "mrchem.x" then Some mrchem_x_path
       else None;
     popen := fun args =>
       if negb answers then None
       else if bool_decide (args = [mrchem_path; "--module"])
       then Some ("/opt/mrchem/lib/python3.9/site-packages" +:+ String PyStr.newline "")
       else if bool_decide (args = [mrchem_x_path; "--version"])
       then Some ("MRChem version 1.1.0" +:+ String PyStr.newline "")
       else Some "";
     safe_version := fun v => v;
     mrchem_importable := fun path =>
       bool_decide ("/opt/mrchem/lib/python3.9/site-packages" ∈ path);
     validate := fun opts =>
       match opts with
       | JObj m => inr (JObj (list_to_map validated_paths ∪ m))
       | _ => inl "not a mapping"
       end;
     translate_input := fun opts =>
       inr (obj [("printer", obj [("print_level", JInt 0)]);
                 ("molecule", opts)]);
     create_mpi_invocation := fun prog config =>
       [Some "mpirun"; Some "-n"; Some (decimal (nnodes config)); prog];
     temporary_directory := fun parent =>
       match parent with
       | Some d => d +:+ "/tmp0_mrchem_scratch"
       | None => "/tmp/tmp0_mrchem_scratch"
       end;
     can_mkdir := fun _ => true;
     execute := fun _ _ _ => raw;
     json_dumps := fun _ => "{}";
     json_loads := fun _ => doc;
     round3 := fun x => x;
     fxyz := fun width prec x => rjust width (fixed prec x) |}.

Definition start : Proc :=
  {| version_cache := ∅; sys_path := ["/usr/lib/python3.9"];
     spawned := []; dirs := ∅ |}.

Definition config : TaskConfig :=
  {| scratch_directory := None; memory := 1%float; use_mpiexec := false;
     ncores := 1; nnodes := 1 |}.

(** Water, with a ghost helium atom beside it. *)
Definition water_he : Molecule :=
  {| atoms :=
       [{| elem := "O"; real := true; mass := 16%float;
           xyz := (0, 0, -0.125)%float |};
        {| elem := "H"; real := true; mass := 1.0078125%float;
           xyz := (-1.4375, 0, 1.03125)%float |};
        {| elem := "H"; real := true; mass := 1.0078125%float;
           xyz := (1.4375, 0, 1.03125)%float |};
        {| elem := "He"; real := false; mass := 4%float;
           xyz := (0, 5, 0)%float |}];
     molecular_charge := 0%float;
     molecular_multiplicity := 1;
     fix_com := true |}.

Definition job (driver_ : string) : AtomicInput :=
  {| driver := driver_;
     model := {| method := "pbe"; basis := None |};
     molecule := water_he;
     keywords := ∅ |}.

Definition spin_labels : list string := ["p"; "p"; "p"; "p"; "p"; "a"].

(** The native output of a run with five doubly occupied orbitals, one
    alpha orbital and total energy [e_tot]. *)
Definition native_output (flag : json) (e_tot : json) : json :=
  obj [("success", flag);
       ("properties",
        obj [("orbital_energies",
              obj [("spin", JArr (map JStr spin_labels));
                   ("occupation", JArr (map JFloat [2; 2; 2; 2; 2; 1]%float))]);
             ("scf_energy",
              obj [("E_tot", e_tot);
                   ("E_kin", JFloat 76.25); ("E_en", JFloat (-199.5));
                   ("E_next", JFloat 0); ("E_eext", JFloat 0);
                   ("E_ee", JFloat 46.75); ("E_x", JFloat 0);
                   ("E_xc", JFloat (-9.25)); ("E_nn", JFloat 9.75)]);
             ("dipole_moment",
              obj [("dip-1",
                    obj [("vector", JArr (map JFloat [0; 0; 0.75]%float))])])]);
       ("scf_calculation",
        obj [("scf_solver", obj [("cycles", JArr [JNull; JNull; JNull])])]);
       ("provenance", obj [("creator", JStr "MRChem")])].

(** The document the program leaves in its output file. *)
Definition native (flag : json) (e_tot : json) : json :=
  obj [("output", native_output flag e_tot)].

(** An execution plan with nothing in it. *)
Definition empty_plan : MRChemRec :=
  {| rec_scratch_directory := None; folders := []; mrchem_json := JNull;
     command := [] |}.

Definition ran (out err : string) : ExecOutput :=
  {| stdout := out; stderr := err; outfile_data_json := Some "{...}" |}.

(** The program ran and reports success with total energy -76.0. *)
Definition host_ok : Host :=
  host true (true, ran "done" "") (Some (native (JBool true) (JFloat (-76)))).

(** The program ran, reports failure and wrote "segmentation fault". *)
Definition host_segv : Host :=
  host true (true, ran "" "segmentation fault")
    (Some (native (JBool false) (JFloat (-76)))).

(** The supervised execution failed with a crash signature. *)
Definition host_crash : Host :=
  host true (false, ran "" "Caught signal SIGSEGV") None.

(** The program ran and left a file that is not JSON. *)
Definition host_garbled : Host :=
  host true (true, ran "done" "") None.

(** The auxiliary queries time out. *)
Definition host_silent : Host :=
  host false (true, ran "done" "") None.

End Example.

(** ** The stages of [build_input] *)

(** [mrchemrec["folders"]]: the five paths read from the validated
    options, in the order they are written. *)
Definition plan_folders (validated : json) : res (list json) :=
  let* d1 := getitem2 validated "SCF" "path_checkpoint" in
  let* d2 := getitem2 validated "SCF" "path_orbitals" in
  let* d3 := getitem2 validated "Response" "path_checkpoint" in
  let* d4 := getitem2 validated "Response" "path_orbitals" in
  let* d5 := getitem2 validated "Plotter" "path" in
  ok [d1; d2; d3; d4; d5].

(** [opts["printer"]["file_name"] = "data.inp"] on the translated options,
    then [mrchemrec["mrchem_json"] = {"input": opts}]. *)
Definition plan_json (translated : json) : res json :=
  let* printer := Py.getitem translated "printer" in
  let* printer' := Py.setitem printer "file_name" (JStr "data.inp") in
  let* opts := Py.setitem translated "printer" printer' in
  ok (JObj (<["input" := opts]> ∅)).

(** [mrchemrec["command"]]; under MPI the message handed to [logger.info]
    joins its words first. *)
Definition plan_command (h : Host) (config : TaskConfig)
    : res (list (option string)) :=
  if use_mpiexec config then
    let command := create_mpi_invocation h (which h "mrchem.x") config in
    let* _ := Py.join_words " " command in
    ok command
  else ok [which h "mrchem.x"].

(** The [try]/[except Exception] around [validate] and around
    [translate_input]. *)
Definition or_input_error (answer : string + json) : res json :=
  match answer with
  | inl msg => raise (input_error msg)
  | inr opts => ok opts
  end.

(** ** The call of [AtomicResult] *)

(** [compute] up to the call of [AtomicResult] in its last line: the
    items of [output_data], which are the keyword arguments of that call.
    The constructor is not code of [mrchem.py]; it validates the
    arguments and may refuse or convert them. [compute] takes the
    arguments for the result, so that the two are the same computation
    here. *)
Definition atomic_result_arguments (h : Host) (input_model : AtomicInput)
    (config : TaskConfig) : M OutputData :=
  compute h input_model config.

(** The arguments [compute] hands to [AtomicResult] once the program ran
    under the plan [job_input] and left [output], the native output held
    [flag] as its success and the dictionary [prov] as its provenance, and
    [filled] are the properties and the [return_result] of the driver. *)
Definition successful_result (h : Host) (input_model : AtomicInput)
    (config : TaskConfig) (job_input : MRChemRec) (output : ExecOutput)
    (flag : json) (filled : gmap string json * json) (prov : gmap string json)
    : OutputData :=
  {| od_keywords := mrchem_json job_input;
     od_schema_name := "qcschema_output";
     od_schema_version := 1;
     od_model := model input_model;
     od_molecule := molecule input_model;
     od_properties := fst filled;
     od_stdout := Some (stdout output);
     od_success := Some flag;
     od_driver := Some (driver input_model);
     od_return_result := Some (snd filled);
     od_stderr := None;
     od_error := None;
     od_provenance :=
       Some (JObj (<["memory" := JFloat (round3 h (memory config))]> prov)) |}.

(** The keys of the properties table. *)
Definition property_keys : gset string :=
  {["calcinfo_nmo"; "calcinfo_nalpha"; "calcinfo_nbeta"; "calcinfo_natom";
    "return_energy"; "scf_one_electron_energy"; "scf_two_electron_energy";
    "nuclear_repulsion_energy"; "scf_xc_energy"; "scf_total_energy";
    "scf_iterations"]}.

(** ** How a computation changes the process *)

(** The process after [c] stands in the relation [R] to the process before
    it, whether [c] returns or raises. *)
Definition steps {A} (R : relation Proc) (c : M A) : Prop :=
  forall p, R p (snd (c p)).

(** The observation [obs] of the process is left as it was. *)
Definition same {X} (obs : Proc -> X) : relation Proc :=
  fun p p' => obs p' = obs p.

(** The list [obs] of the process is only appended to. *)
Definition appended {X} (obs : Proc -> list X) : relation Proc :=
  fun p p' => obs p `prefix_of` obs p'.

(** No directory is removed. *)
Definition dirs_kept : relation Proc :=
  fun p p' => dirs p ⊆ dirs p'.

(** The process after [n] calls of [build_input], one after the other. *)
Definition build_input_times (h : Host) (input_model : AtomicInput)
    (config : TaskConfig) (n : nat) (p : Proc) : Proc :=
  Nat.iter n (fun q => snd (build_input h input_model config q)) p.

(** A computation that, when it raises, raises no error that [bad] marks. *)
Definition avoids {A} (bad : exn -> bool) (c : res A) : Prop :=
  forall e, c = inl e -> bad e = false.

(** The error is an [InputError]. *)
Definition is_InputError (e : exn) : bool :=
  match e with
  | InputError _ => true
  | _ => false
  end.

(** ** Further hosts, jobs and processes *)

Module Scenario.

(** [h] on a machine where [command] is not installed. *)
Definition without (command : string) (h : Host) : Host :=
  {| which := fun c => if String.eqb c command then None else which h c;
     popen := popen h; safe_version := safe_version h;
     mrchem_importable := mrchem_importable h; validate := validate h;
     translate_input := translate_input h;
     create_mpi_invocation := create_mpi_invocation h;
     temporary_directory := temporary_directory h; can_mkdir := can_mkdir h;
     execute := execute h; json_dumps := json_dumps h;
     json_loads := json_loads h; round3 := round3 h; fxyz := fxyz h |}.

(** [h] with a validator that rejects every input with [msg]. *)
Definition rejecting (msg : string) (h : Host) : Host :=
  {| which := which h; popen := popen h; safe_version := safe_version h;
     mrchem_importable := mrchem_importable h; validate := fun _ => inl msg;
     translate_input := translate_input h;
     create_mpi_invocation := create_mpi_invocation h;
     temporary_directory := temporary_directory h; can_mkdir := can_mkdir h;
     execute := execute h; json_dumps := json_dumps h;
     json_loads := json_loads h; round3 := round3 h; fxyz := fxyz h |}.

(** [h] on a file system where the directory [d] cannot be made. *)
Definition unwritable (d : string) (h : Host) : Host :=
  {| which := which h; popen := popen h; safe_version := safe_version h;
     mrchem_importable := mrchem_importable h; validate := validate h;
     translate_input := translate_input h;
     create_mpi_invocation := create_mpi_invocation h;
     temporary_directory := temporary_directory h;
     can_mkdir := fun x => negb (String.eqb x d) && can_mkdir h x;
     execute := execute h; json_dumps := json_dumps h;
     json_loads := json_loads h; round3 := round3 h; fxyz := fxyz h |}.

(** The program ran and wrote [null] for its success. *)
Definition host_null : Host :=
  Example.host true (true, Example.ran "done" "")
    (Some (Example.native JNull (JFloat (-76)))).

(** A job whose keywords hold a [WaveFunction] block with a method of its
    own, a [Molecule] entry and a precision. *)
Definition job_with_keywords (driver_ : string) : AtomicInput :=
  {| driver := driver_;
     model := {| method := "pbe"; basis := None |};
     molecule := Example.water_he;
     keywords :=
       list_to_map
         [("world_prec", JFloat 0.125);
          ("Molecule", JStr "stale");
          ("WaveFunction",
           Example.obj [("restricted", JBool false); ("method", JStr "hf")])] |}.

(** A process in which the checkpoint directory is already there. *)
Definition start_with_checkpoint : Proc :=
  {| version_cache := ∅; sys_path := ["/usr/lib/python3.9"];
     spawned := []; dirs := {["checkpoint"]} |}.

End Scenario.

(** * Properties of the harness *)

(** ** How computations compose *)

Lemma rbind_inr {A B} (c : res A) (k : A -> res B) (y : B) :
  rbind c k = inr y -> exists x, c = inr x /\ k x = inr y.
Proof. destruct c as [e | x]; simpl; [discriminate | eauto]. Qed.

Lemma is_ok_inr {A} (c : res A) : is_ok c = true -> exists x, c = inr x.
Proof. destruct c as [e | x]; simpl; [discriminate | eauto]. Qed.

Lemma bind_inr {A B} (c : M A) (k : A -> M B) (p p' : Proc) (y : B) :
  bind c k p = (inr y, p') ->
  exists x p1, c p = (inr x, p1) /\ k x p1 = (inr y, p').
Proof.
  unfold bind. destruct (c p) as [[e | x] p1]; [discriminate | eauto].
Qed.

Lemma bind_step {A B} (c : M A) (k : A -> M B) (p p1 : Proc) (x : A) :
  c p = (inr x, p1) -> bind c k p = k x p1.
Proof. intros H. unfold bind. now rewrite H. Qed.

Lemma bind_raise {A B} (c : M A) (k : A -> M B) (p p1 : Proc) (e : exn) :
  c p = (inl e, p1) -> bind c k p = (inl e, p1).
Proof. intros H. unfold bind. now rewrite H. Qed.

Lemma lift_inr {A} (c : res A) (p p' : Proc) (x : A) :
  lift c p = (inr x, p') -> c = inr x /\ p' = p.
Proof. unfold lift. intros H. injection H as -> ->. auto. Qed.

(** Opens a chain of [let*] that returned. *)
Ltac open_res H :=
  repeat match type of H with
         | rbind ?c _ = inr _ =>
             let E := fresh "E" in
             destruct c eqn:E; [discriminate H | cbn [rbind] in H]
         end.

(** Settles a closed statement by running the model. *)
Ltac by_running := vm_compute; reflexivity.

(** ** The three stages of [compute] *)

(** Once the supervised execution has returned, [compute] is the
    normalization, the dispatch of errors and the provenance, one after
    the other, and the process is not touched any more. *)
Lemma compute_after_supervise h input config p job success output p1 :
  supervise h input config p = (inr (job, (success, output)), p1) ->
  compute h input config p =
    (let* st := normalize h input (initial_locals input job) success output in
     let* _ := dispatch st in
     finish h config st, p1).
Proof.
  intros Hs. unfold compute, compute_until_dispatch.
  unfold bind at 1. unfold bind at 1. rewrite Hs. simpl.
  unfold lift at 1.
  destruct (normalize _ _ _ _ _) as [e | st]; simpl; [reflexivity |].
  unfold bind, lift. destruct (dispatch st); reflexivity.
Qed.

Lemma until_dispatch_inr h input config p st p' :
  compute_until_dispatch h input config p = (inr st, p') ->
  exists job success output,
    supervise h input config p = (inr (job, (success, output)), p') /\
    normalize h input (initial_locals input job) success output = inr st.
Proof.
  unfold compute_until_dispatch. intros H.
  apply bind_inr in H as ([job [success output]] & p1 & Hs & Hn).
  apply lift_inr in Hn as [Hn ->]. simpl in Hn. eauto.
Qed.

Lemma compute_inr h input config p r p' :
  compute h input config p = (inr r, p') ->
  exists job success output st,
    supervise h input config p = (inr (job, (success, output)), p') /\
    normalize h input (initial_locals input job) success output = inr st /\
    dispatch st = inr tt /\
    finish h config st = inr r.
Proof.
  unfold compute. intros H.
  apply bind_inr in H as (st & p1 & Hu & H).
  apply bind_inr in H as ([] & p2 & Hd & Hf).
  apply lift_inr in Hd as [Hd ->]. apply lift_inr in Hf as [Hf ->].
  apply until_dispatch_inr in Hu as (job & s & o & Hs & Hn).
  exists job, s, o, st. auto.
Qed.

(** What the successful branch of the normalization has done. *)
Lemma normalize_success_inr h input st output st' :
  normalize h input st true output = inr st' ->
  exists out flag props filled,
    extract_properties h input output = inr (out, flag, props) /\
    fill_return_result input out props = inr filled /\
    st' = {| error_type := error_type st; error_message := error_message st;
             compute_success := flag;
             output_data :=
               set_success_items (output_data st) flag (driver input)
                 (stdout output) (fst filled) (snd filled);
             mrchem_output := Some out |}.
Proof.
  unfold normalize. intros H.
  apply rbind_inr in H as ([[out flag] props] & Hx & H).
  apply rbind_inr in H as (filled & Hf & H).
  apply rbind_inr in H as (flag' & Hs & H). injection H as <-.
  assert (flag' = flag) as ->.
  { unfold extract_properties in Hx. open_res Hx. injection Hx as <- <- _.
    congruence. }
  eexists _, _, _, _. eauto.
Qed.

Lemma normalize_error_message h input st success output st' :
  normalize h input st success output = inr st' ->
  error_message st' = error_message st.
Proof.
  destruct success; intros H.
  - apply normalize_success_inr in H as (? & ? & ? & ? & _ & _ & ->). reflexivity.
  - injection H as <-. reflexivity.
Qed.

Lemma extract_properties_inr h input output out flag props :
  extract_properties h input output = inr (out, flag, props) ->
  read_output h output = inr out /\
  Py.getitem out "success" = inr flag /\
  exists spin occs,
    orbital_energies out "spin" = inr spin /\
    Py.Counter spin = inr occs /\
    fill_properties input out occs = inr props.
Proof.
  unfold extract_properties. intros H. open_res H.
  injection H as <- <- <-. eauto 8.
Qed.

(** The items of the properties table. *)
Lemma fill_properties_inr input out occs props :
  fill_properties input out occs = inr props ->
  props <> ∅ /\
  (exists nalpha,
     Py.add (occs "p") (occs "a") = inr nalpha /\
     props !! "calcinfo_nalpha" = Some nalpha) /\
  (exists nbeta,
     Py.add (occs "p") (occs "b") = inr nbeta /\
     props !! "calcinfo_nbeta" = Some nbeta) /\
  (exists occupation nmo,
     orbital_energies out "occupation" = inr occupation /\
     Py.len occupation = inr nmo /\
     props !! "calcinfo_nmo" = Some (JInt nmo)) /\
  (exists e,
     scf_energy out "E_tot" = inr e /\
     props !! "return_energy" = Some e /\
     props !! "scf_total_energy" = Some e).
Proof.
  unfold fill_properties. intros H. open_res H. injection H as <-.
  split; [apply insert_non_empty |].
  split; [eexists; split; first [eassumption | reflexivity] |].
  split; [eexists; split; first [eassumption | reflexivity] |]. split.
  - eexists _, _. repeat split; first [eassumption | reflexivity].
  - eexists. repeat split; first [eassumption | reflexivity].
Qed.

(** The driver decides [return_result], and leaves the table as it is but
    for the dipole moment. *)
Lemma fill_return_result_inr input out props filled :
  fill_return_result input out props = inr filled ->
  (driver input = "energy" \/ driver input = "properties") /\
  (props <> ∅ -> fst filled <> ∅) /\
  (forall k, k <> "scf_dipole_moment" -> fst filled !! k = props !! k) /\
  (driver input = "energy" -> scf_energy out "E_tot" = inr (snd filled)).
Proof.
  unfold fill_return_result. intros H.
  destruct (String.eqb (driver input) "energy") eqn:Ed.
  - apply String.eqb_eq in Ed. apply rbind_inr in H as (e & He & H).
    injection H as <-. simpl. auto.
  - destruct (String.eqb (driver input) "properties") eqn:Ep; [| discriminate H].
    apply String.eqb_eq in Ep. apply String.eqb_neq in Ed.
    apply rbind_inr in H as (v & Hv & H). rewrite Hv in H. injection H as <-.
    simpl. split; [auto |]. split; [intros _; apply insert_non_empty |].
    split; [| intros Hd; contradiction].
    intros k Hk. now rewrite lookup_insert_ne.
Qed.

Lemma finish_inr h config st r :
  finish h config st = inr r ->
  od_properties r = od_properties (output_data st) /\
  od_return_result r = od_return_result (output_data st) /\
  od_error r = od_error (output_data st).
Proof.
  unfold finish. destruct (mrchem_output st); [| discriminate].
  intros H. open_res H. injection H as <-. auto.
Qed.

Lemma dispatch_inr st u :
  dispatch st = inr u -> Py.is_False (compute_success st) = false.
Proof.
  unfold dispatch. destruct (Py.is_False (compute_success st)); [| reflexivity].
  destruct (error_message st) as [msg |]; simpl; [| discriminate].
  destruct (PyStr.contains "SIGSEV" msg); simpl; [discriminate |].
  destruct (PyStr.contains "SIGSEGV" msg); simpl; [discriminate |].
  destruct (PyStr.contains "segmentation fault" msg); discriminate.
Qed.

Lemma dispatch_null st :
  Py.is_False (compute_success st) = true ->
  error_message st = None ->
  dispatch st = raise (TypeError "argument of type 'NoneType' is not iterable").
Proof. unfold dispatch. intros -> ->. reflexivity. Qed.

(** A result that [compute] returns comes from the successful branch of
    the normalization. *)
Lemma compute_returns_inv h input config p r p' :
  compute h input config p = (inr r, p') ->
  exists job output out flag props filled,
    supervise h input config p = (inr (job, (true, output)), p') /\
    extract_properties h input output = inr (out, flag, props) /\
    fill_return_result input out props = inr filled /\
    od_properties r = fst filled /\
    od_return_result r = Some (snd filled) /\
    od_error r = None.
Proof.
  intros H. apply compute_inr in H as (job & s & o & st & Hs & Hn & Hd & Hf).
  apply dispatch_inr in Hd. destruct s.
  - apply normalize_success_inr in Hn as (out & flag & props & filled & H1 & H2 & ->).
    apply finish_inr in Hf as (Hp & Hr & He). simpl in Hp, Hr, He.
    exists job, o, out, flag, props, filled. auto 10.
  - injection Hn as <-. discriminate Hd.
Qed.

(** When [compute] returns: the supervised execution and the extraction
    succeeded, the program did not report [False], the driver is known
    and the native output has a provenance dictionary. *)
Lemma compute_returns h input config p job output out flag props filled prov p1 :
  supervise h input config p = (inr (job, (true, output)), p1) ->
  extract_properties h input output = inr (out, flag, props) ->
  Py.is_False flag = false ->
  fill_return_result input out props = inr filled ->
  Py.getitem out "provenance" = inr (JObj prov) ->
  exists r,
    compute h input config p = (inr r, p1) /\
    od_properties r = fst filled /\
    od_return_result r = Some (snd filled) /\
    od_success r = Some flag /\
    od_error r = None /\
    od_provenance r = Some (JObj (<["memory" := JFloat (round3 h (memory config))]> prov)).
Proof.
  intros Hs Hx Hflag Hf Hprov.
  rewrite (compute_after_supervise _ _ _ _ _ _ _ _ Hs).
  unfold normalize. rewrite Hx. simpl. rewrite Hf. simpl.
  apply extract_properties_inr in Hx as (_ & Hsuccess & _).
  rewrite Hsuccess. simpl.
  unfold dispatch. simpl. rewrite Hflag. simpl.
  unfold finish. simpl. rewrite Hprov. simpl.
  eexists. split; [reflexivity |]. simpl. auto.
Qed.

(** ** The dispatch of errors *)

(** C2. Whenever [compute] reaches the dispatch of errors with
    [compute_success is False] (the supervised execution failed, or the
    program reported failure), [error_message] is still [None]: nothing
    assigned the captured stderr to it. The substring tests therefore run
    on [None], not on any stderr text, and [compute] ends in the
    [TypeError] of the first test. *)
Theorem error_message_null_at_dispatch h input config p st p' :
  compute_until_dispatch h input config p = (inr st, p') ->
  Py.is_False (compute_success st) = true ->
  error_message st = None /\
  dispatch st = raise (TypeError "argument of type 'NoneType' is not iterable") /\
  compute h input config p =
    (raise (TypeError "argument of type 'NoneType' is not iterable"), p').
Proof.
  intros Hrun Hfalse.
  assert (Hnull : error_message st = None).
  { apply until_dispatch_inr in Hrun as (job & s & o & _ & Hn).
    now apply normalize_error_message in Hn. }
  split; [exact Hnull |]. split; [now apply dispatch_null |].
  unfold compute. rewrite (bind_step _ _ _ _ _ Hrun).
  unfold bind, lift. now rewrite dispatch_null.
Qed.

Lemma error_message_null_at_dispatch_witness :
  exists st p',
    compute_until_dispatch Example.host_crash (Example.job "energy")
      Example.config Example.start = (inr st, p') /\
    Py.is_False (compute_success st) = true /\
    error_message st = None /\
    compute Example.host_crash (Example.job "energy") Example.config Example.start =
      (raise (TypeError "argument of type 'NoneType' is not iterable"), p').
Proof.
  pose proof (error_message_null_at_dispatch Example.host_crash
                (Example.job "energy") Example.config Example.start) as H.
  assert (Hb : match fst (compute_until_dispatch Example.host_crash
                            (Example.job "energy") Example.config Example.start) with
               | inr st => Py.is_False (compute_success st)
               | inl _ => false
               end = true) by by_running.
  destruct (compute_until_dispatch Example.host_crash (Example.job "energy")
              Example.config Example.start) as [[e | st] p'];
    simpl in Hb; [discriminate Hb |].
  exists st, p'. split; [reflexivity |]. split; [exact Hb |].
  destruct (H st p' eq_refl Hb) as (H1 & _ & H3). split; [exact H1 | exact H3].
Defined.

(** C1. A run whose stderr holds "segmentation fault" while the program
    reports failure, and a run whose supervised execution fails with
    "SIGSEGV" in its stderr, both end in [TypeError]: neither
    [RandomError] nor [UnknownError] is raised. *)
Theorem crash_signature_ends_in_TypeError :
  PyStr.contains "segmentation fault"
    (stderr (snd (execute Example.host_segv [] "" ""))) = true /\
  fst (compute Example.host_segv (Example.job "energy") Example.config Example.start) =
    raise (TypeError "argument of type 'NoneType' is not iterable") /\
  PyStr.contains "SIGSEGV"
    (stderr (snd (execute Example.host_crash [] "" ""))) = true /\
  fst (compute Example.host_crash (Example.job "energy") Example.config Example.start) =
    raise (TypeError "argument of type 'NoneType' is not iterable").
Proof.
  split; [by_running |]. split; [by_running |]. split; by_running.
Qed.


(** ** The errors [compute] can end in *)

Create HintDb quiet.

Lemma rquiet_ok {A} (x : A) : rquiet (ok x).
Proof. intros e H. discriminate H. Qed.

Lemma rquiet_raise {A} (e : exn) : classified e = false -> rquiet (@raise A e).
Proof. intros He e' H. injection H as <-. exact He. Qed.

Lemma rquiet_bind {A B} (c : res A) (k : A -> res B) :
  rquiet c -> (forall x, rquiet (k x)) -> rquiet (rbind c k).
Proof.
  intros Hc Hk e H. destruct c as [e' | x]; simpl in H.
  - injection H as <-. now apply Hc.
  - now apply (Hk x).
Qed.

Lemma quiet_lift {A} (c : res A) : rquiet c -> quiet (lift c).
Proof. intros Hc p e p' H. injection H as H _. now apply Hc. Qed.

Lemma quiet_ret {A} (x : A) : quiet (ret x).
Proof. intros p e p' H. discriminate H. Qed.

Lemma quiet_throw {A} (e : exn) : classified e = false -> quiet (@throw A e).
Proof. intros He p e' p' H. injection H as <- _. exact He. Qed.

Lemma quiet_get : quiet get.
Proof. intros p e p' H. discriminate H. Qed.

Lemma quiet_modify (f : Proc -> Proc) : quiet (modify f).
Proof. intros p e p' H. discriminate H. Qed.

Lemma quiet_bind {A B} (c : M A) (k : A -> M B) :
  quiet c -> (forall x, quiet (k x)) -> quiet (bind c k).
Proof.
  intros Hc Hk p e p' H. unfold bind in H.
  destruct (c p) as [[e' | x] p1] eqn:E.
  - injection H as <- _. now apply (Hc p e' p1).
  - now apply (Hk x p1 e p').
Qed.

(** Takes a computation apart down to the operations it is made of. *)
Ltac quiet_steps :=
  repeat first
    [ solve [auto with quiet]
    | apply rquiet_ok
    | apply rquiet_raise; reflexivity
    | apply rquiet_bind; [| intros ?]
    | apply quiet_ret
    | apply quiet_get
    | apply quiet_modify
    | apply quiet_throw; reflexivity
    | apply quiet_lift
    | apply quiet_bind; [| intros ?]
    | match goal with
      | |- rquiet (match ?x with _ => _ end) => destruct x
      | |- quiet (match ?x with _ => _ end) => destruct x
      end
    | progress cbv zeta ].

Lemma rquiet_last_item {A} (l : list A) : rquiet (Py.last_item l).
Proof. unfold Py.last_item. quiet_steps. Qed.

Lemma rquiet_getitem v k : rquiet (Py.getitem v k).
Proof. unfold Py.getitem. quiet_steps. Qed.

Lemma rquiet_setitem v k x : rquiet (Py.setitem v k x).
Proof. unfold Py.setitem. quiet_steps. Qed.

Lemma rquiet_len v : rquiet (Py.len v).
Proof. unfold Py.len. quiet_steps. Qed.

Lemma rquiet_float_of_int z : rquiet (Py.float_of_int z).
Proof. unfold Py.float_of_int. cbv zeta. quiet_steps. Qed.

Lemma rquiet_int_of_float f : rquiet (Py.int_of_float f).
Proof. unfold Py.int_of_float. quiet_steps. Qed.

#[local] Hint Resolve rquiet_last_item rquiet_getitem rquiet_setitem rquiet_len
  rquiet_float_of_int rquiet_int_of_float : quiet.

Lemma rquiet_add x y : rquiet (Py.add x y).
Proof. unfold Py.add. quiet_steps. Qed.

Lemma rquiet_Counter v : rquiet (Py.Counter v).
Proof. unfold Py.Counter. quiet_steps. Qed.

Lemma rquiet_getitem2 v a b : rquiet (getitem2 v a b).
Proof. unfold getitem2. quiet_steps. Qed.

Lemma rquiet_scf_energy v k : rquiet (scf_energy v k).
Proof. unfold scf_energy. quiet_steps. Qed.

Lemma rquiet_orbital_energies v k : rquiet (orbital_energies v k).
Proof. unfold orbital_energies. quiet_steps. Qed.

Lemma rquiet_dipole_vector v : rquiet (dipole_vector v).
Proof. unfold dipole_vector. quiet_steps. Qed.

#[local] Hint Resolve rquiet_add rquiet_Counter rquiet_getitem2 rquiet_scf_energy
  rquiet_orbital_energies rquiet_dipole_vector : quiet.

Lemma rquiet_normalize h input st success output :
  rquiet (normalize h input st success output).
Proof.
  unfold normalize, extract_properties, read_output, fill_properties,
    fill_return_result.
  quiet_steps.
Qed.

Lemma rquiet_finish h config st : rquiet (finish h config st).
Proof. unfold finish. quiet_steps. Qed.

Lemma rquiet_found h b : rquiet (found h b).
Proof. unfold found, which_bool. quiet_steps. Qed.

Lemma rquiet_build_mrchemrec h input config :
  rquiet (build_mrchemrec h input config).
Proof.
  unfold build_mrchemrec, job_opts, input_error, Py.join_words. quiet_steps.
Qed.

#[local] Hint Resolve rquiet_normalize rquiet_finish rquiet_found
  rquiet_build_mrchemrec : quiet.

Lemma quiet_popen_wait h args : quiet (popen_wait h args).
Proof. unfold popen_wait. quiet_steps. Qed.

Lemma quiet_make_folders h ds : quiet (make_folders h ds).
Proof.
  induction ds as [| d ds IH]; simpl; [apply quiet_ret |].
  destruct d; quiet_steps.
Qed.

#[local] Hint Resolve quiet_popen_wait quiet_make_folders : quiet.

Lemma quiet_build_input h input config : quiet (build_input h input config).
Proof. unfold build_input. quiet_steps. Qed.

#[local] Hint Resolve quiet_build_input : quiet.

Lemma quiet_until_dispatch h input config :
  quiet (compute_until_dispatch h input config).
Proof. unfold compute_until_dispatch, supervise. quiet_steps. Qed.

(** Whatever the run, [compute] ends neither in [RandomError] nor in
    [UnknownError]: the dispatch of errors is the only place that raises
    them, and it fails before it gets there. *)
Lemma compute_never_classifies h input config p e p' :
  compute h input config p = (inl e, p') -> classified e = false.
Proof.
  unfold compute. intros H. unfold bind at 1 in H.
  destruct (compute_until_dispatch h input config p) as [[e0 | st] p1] eqn:Hu.
  - injection H as <- _. exact (quiet_until_dispatch _ _ _ _ _ _ Hu).
  - assert (Hnull : error_message st = None).
    { apply until_dispatch_inr in Hu as (job & s & o & _ & Hn).
      now apply normalize_error_message in Hn. }
    unfold bind, lift in H.
    destruct (dispatch st) as [e1 | []] eqn:Hd.
    + injection H as <- _. unfold dispatch in Hd. rewrite Hnull in Hd.
      destruct (Py.is_False (compute_success st)); [| discriminate Hd].
      injection Hd as <-. reflexivity.
    + destruct (finish h config st) as [e2 | r] eqn:Hf; [| discriminate H].
      injection H as <- _. exact (rquiet_finish _ _ _ _ Hf).
Qed.

(** ** The normalization step *)




(** ** The shape of a returned result *)

(** C4. A result that [compute] returns is fully successful (no error
    record, properties not empty, [return_result] set) or fully failed (an
    error record, properties empty), never a mix of the two. *)
Theorem result_never_hybrid h input config p r p' :
  compute h input config p = (inr r, p') ->
  (od_error r = None /\ od_properties r <> ∅ /\ is_Some (od_return_result r)) \/
  (is_Some (od_error r) /\ od_properties r = ∅).
Proof.
  intros H. left.
  apply compute_returns_inv in H
    as (job & o & out & flag & props & filled & _ & Hx & Hf & -> & -> & ->).
  apply extract_properties_inr in Hx as (_ & _ & spin & occs & _ & _ & Hp).
  apply fill_properties_inr in Hp as (Hne & _).
  apply fill_return_result_inr in Hf as (_ & Hf & _).
  split; [reflexivity |]. split; [auto | eauto].
Qed.

Lemma result_never_hybrid_witness :
  exists r p',
    compute Example.host_ok (Example.job "energy") Example.config Example.start =
      (inr r, p') /\
    ((od_error r = None /\ od_properties r <> ∅ /\ is_Some (od_return_result r)) \/
     (is_Some (od_error r) /\ od_properties r = ∅)).
Proof.
  pose proof (result_never_hybrid Example.host_ok (Example.job "energy")
                Example.config Example.start) as H.
  assert (Hb : is_ok (fst (compute Example.host_ok (Example.job "energy")
                             Example.config Example.start)) = true) by by_running.
  destruct (compute Example.host_ok (Example.job "energy") Example.config
              Example.start) as [[e | r] p'];
    simpl in Hb; [discriminate Hb |].
  exists r, p'. split; [reflexivity |]. exact (H r p' eq_refl).
Defined.

(** ** The driver *)

(** C5, as the claim states it, fails: with a driver that is neither
    "energy" nor "properties" and a native output file that is not JSON,
    [compute] ends in the error of the parser; the native output is read
    before the driver is looked at. *)
Lemma unsupported_driver_parsed_first :
  driver (Example.job "gradient") <> "energy" /\
  driver (Example.job "gradient") <> "properties" /\
  fst (compute Example.host_garbled (Example.job "gradient") Example.config
         Example.start) = raise JSONDecodeError.
Proof.
  split; [discriminate |]. split; [discriminate |]. by_running.
Qed.

(** C5, amended. For a driver that is neither "energy" nor "properties",
    [compute] never returns a result; and when the supervised execution
    succeeded, the native output was parsed and the properties table was
    filled from it, [compute] fails with the [RuntimeError] that names
    the driver. *)
Theorem unsupported_driver_raises h input config p :
  driver input <> "energy" ->
  driver input <> "properties" ->
  (forall r p', compute h input config p <> (inr r, p')) /\
  (forall job output p',
     supervise h input config p = (inr (job, (true, output)), p') ->
     is_ok (extract_properties h input output) = true ->
     compute h input config p =
       (raise (RuntimeError ("MRChem cannot run with " +:+ driver input +:+ " driver")),
        p')).
Proof.
  intros He Hp. split.
  - intros r p' H.
    apply compute_returns_inv in H
      as (job & o & out & flag & props & filled & _ & _ & Hf & _).
    apply fill_return_result_inr in Hf as ([Hd | Hd] & _); contradiction.
  - intros job output p' Hs Hx.
    apply is_ok_inr in Hx as ([[out flag] props] & Hx).
    rewrite (compute_after_supervise _ _ _ _ _ _ _ _ Hs).
    unfold normalize. rewrite Hx. simpl.
    unfold fill_return_result.
    apply String.eqb_neq in He, Hp. rewrite He, Hp. reflexivity.
Qed.

Lemma unsupported_driver_raises_witness :
  (forall r p',
     compute Example.host_ok (Example.job "gradient") Example.config Example.start
       <> (inr r, p')) /\
  fst (compute Example.host_ok (Example.job "gradient") Example.config Example.start) =
    raise (RuntimeError "MRChem cannot run with gradient driver").
Proof.
  assert (He : driver (Example.job "gradient") <> "energy") by discriminate.
  assert (Hp : driver (Example.job "gradient") <> "properties") by discriminate.
  destruct (unsupported_driver_raises Example.host_ok (Example.job "gradient")
              Example.config Example.start He Hp) as [Hnever Hraise].
  split; [exact Hnever |].
  assert (Hb : match fst (supervise Example.host_ok (Example.job "gradient")
                            Example.config Example.start) with
               | inr (_, (s, o)) =>
                   s && is_ok (extract_properties Example.host_ok
                                 (Example.job "gradient") o)
               | inl _ => false
               end = true) by by_running.
  destruct (supervise Example.host_ok (Example.job "gradient") Example.config
              Example.start) as [[e | [job [s o]]] p'];
    simpl in Hb; [discriminate Hb |].
  apply andb_prop in Hb as [-> Hx].
  rewrite (Hraise job o p' eq_refl Hx). reflexivity.
Defined.

(** ** The energy *)

(** C6. For the driver "energy", when the supervised execution succeeded
    and the native output it left holds [e] as [E_tot], a result that
    [compute] returns has [e] as its [return_result], as its
    [scf_total_energy] and as its [return_energy]. *)
Theorem energy_result h input config p job output out e r p1 p' :
  driver input = "energy" ->
  supervise h input config p = (inr (job, (true, output)), p1) ->
  read_output h output = inr out ->
  scf_energy out "E_tot" = inr e ->
  compute h input config p = (inr r, p') ->
  od_return_result r = Some e /\
  od_properties r !! "scf_total_energy" = Some e /\
  od_properties r !! "return_energy" = Some e.
Proof.
  intros Hd Hs Hout He H.
  apply compute_returns_inv in H
    as (job' & o & out' & flag & props & filled & Hs' & Hx & Hf & -> & -> & _).
  rewrite Hs in Hs'. injection Hs' as <- <- _.
  apply extract_properties_inr in Hx as (Hout' & _ & spin & occs & _ & _ & Hp).
  rewrite Hout in Hout'. injection Hout' as <-.
  apply fill_properties_inr in Hp as (_ & _ & _ & _ & e' & He' & Hr & Ht).
  rewrite He in He'. injection He' as <-.
  apply fill_return_result_inr in Hf as (_ & _ & Hk & Hsnd).
  specialize (Hsnd Hd). rewrite He in Hsnd. injection Hsnd as <-.
  split; [reflexivity |]. rewrite !Hk by discriminate. auto.
Qed.

Lemma energy_result_witness :
  exists r p',
    compute Example.host_ok (Example.job "energy") Example.config Example.start =
      (inr r, p') /\
    od_return_result r = Some (JFloat (-76)) /\
    od_properties r !! "scf_total_energy" = Some (JFloat (-76)) /\
    od_properties r !! "return_energy" = Some (JFloat (-76)).
Proof.
  pose proof (energy_result Example.host_ok (Example.job "energy")
                Example.config Example.start) as H.
  assert (Hs : match fst (supervise Example.host_ok (Example.job "energy")
                            Example.config Example.start) with
               | inr (_, raw) => bool_decide (raw = (true, Example.ran "done" ""))
               | inl _ => false
               end = true) by by_running.
  assert (Hc : is_ok (fst (compute Example.host_ok (Example.job "energy")
                             Example.config Example.start)) = true) by by_running.
  destruct (supervise Example.host_ok (Example.job "energy") Example.config
              Example.start) as [[e | [job raw]] p1];
    simpl in Hs; [discriminate Hs |].
  apply bool_decide_eq_true in Hs. subst raw.
  destruct (compute Example.host_ok (Example.job "energy") Example.config
              Example.start) as [[e | r] p'];
    simpl in Hc; [discriminate Hc |].
  exists r, p'. split; [reflexivity |].
  apply (H job (Example.ran "done" "")
           (Example.native_output (JBool true) (JFloat (-76))) (JFloat (-76))
           r p1 p');
    first [reflexivity | by_running].
Defined.

(** ** The electron counts *)

Lemma count_labels (labels : list string) (k : string) :
  Py.count (map JStr labels) k = Z.of_nat (count_occ string_dec labels k).
Proof.
  unfold Py.count. f_equal.
  induction labels as [| s labels IH]; [reflexivity |].
  cbn [map count_occ]. rewrite filter_cons. simpl.
  destruct (string_dec s k) as [-> | Hne].
  - rewrite String.eqb_refl. rewrite decide_True by reflexivity.
    simpl. now rewrite IH.
  - apply String.eqb_neq in Hne. rewrite Hne.
    rewrite decide_False by discriminate. exact IH.
Qed.

Lemma Counter_labels (labels : list string) :
  Py.Counter (JArr (map JStr labels)) =
    inr (fun k => JInt (Py.count (map JStr labels) k)).
Proof.
  unfold Py.Counter.
  replace (forallb Py.hashable (map JStr labels)) with true; [reflexivity |].
  induction labels; simpl; auto.
Qed.

(** C7. When the spin labels of the native output are [labels] and its
    occupations are [occupation], the properties the normalization fills
    have as [calcinfo_nalpha] the number of "p" plus the number of "a"
    among the labels, as [calcinfo_nbeta] the number of "p" plus the
    number of "b", and as [calcinfo_nmo] the length of [occupation]. *)
Theorem electron_counts h input st output out labels occupation st' :
  read_output h output = inr out ->
  orbital_energies out "spin" = inr (JArr (map JStr labels)) ->
  orbital_energies out "occupation" = inr (JArr occupation) ->
  normalize h input st true output = inr st' ->
  let tally k := Z.of_nat (count_occ string_dec labels k) in
  let props := od_properties (output_data st') in
  props !! "calcinfo_nalpha" = Some (JInt (tally "p" + tally "a")) /\
  props !! "calcinfo_nbeta" = Some (JInt (tally "p" + tally "b")) /\
  props !! "calcinfo_nmo" = Some (JInt (Z.of_nat (length occupation))).
Proof.
  intros Hout Hspin Hocc H tally props0. subst tally props0.
  apply normalize_success_inr in H as (out' & flag & props & filled & Hx & Hf & ->).
  apply extract_properties_inr in Hx as (Hout' & _ & spin & occs & Hs & Hc & Hp).
  rewrite Hout in Hout'. injection Hout' as <-.
  rewrite Hspin in Hs. injection Hs as <-.
  rewrite Counter_labels in Hc. injection Hc as <-.
  apply fill_properties_inr in Hp
    as (_ & (nalpha & Hadd_a & Ha) & (nbeta & Hadd_b & Hb) &
        (occupation' & nmo & Ho & Hl & Hn) & _).
  injection Hadd_a as <-. injection Hadd_b as <-.
  rewrite Hocc in Ho. injection Ho as <-. simpl in Hl. injection Hl as <-.
  apply fill_return_result_inr in Hf as (_ & _ & Hk & _).
  simpl. rewrite !Hk by discriminate.
  rewrite <- !count_labels. auto.
Qed.

Lemma electron_counts_witness :
  exists st',
    normalize Example.host_ok (Example.job "energy")
      (initial_locals (Example.job "energy") Example.empty_plan) true
      (Example.ran "done" "") = inr st' /\
    od_properties (output_data st') !! "calcinfo_nalpha" = Some (JInt 6) /\
    od_properties (output_data st') !! "calcinfo_nbeta" = Some (JInt 5) /\
    od_properties (output_data st') !! "calcinfo_nmo" = Some (JInt 6).
Proof.
  pose proof (electron_counts Example.host_ok (Example.job "energy")
                (initial_locals (Example.job "energy") Example.empty_plan)
                (Example.ran "done" "")
                (Example.native_output (JBool true) (JFloat (-76)))
                Example.spin_labels
                (map JFloat [2; 2; 2; 2; 2; 1]%float)) as H.
  assert (Hn : is_ok (normalize Example.host_ok (Example.job "energy")
                        (initial_locals (Example.job "energy") Example.empty_plan)
                        true (Example.ran "done" "")) = true) by by_running.
  destruct (normalize Example.host_ok (Example.job "energy")
              (initial_locals (Example.job "energy") Example.empty_plan) true
              (Example.ran "done" "")) as [e | st'];
    simpl in Hn; [discriminate Hn |].
  exists st'. split; [reflexivity |].
  apply (H st'); first [reflexivity | by_running].
Defined.

(** ** The version cache *)

(** [get_version] once both executables are found: a cache hit returns
    the cached string and leaves the process alone; a miss spawns one
    query and, when it answers, stores the version under the path. *)
Lemma get_version_found h p path :
  which h "mrchem.x" = Some path ->
  is_ok (found h true) = true ->
  let asked := set_spawned (spawned p ++ [[Some path; Some "--version"]]) p in
  get_version h p =
    match version_cache p !! path with
    | Some v => (inr v, p)
    | None =>
        match popen h [path; "--version"] with
        | None => (inl (TimeoutExpired [path; "--version"]), asked)
        | Some out =>
            match last (PyStr.split out) with
            | None => (inl IndexError, asked)
            | Some tok =>
                (inr (safe_version h tok),
                 set_version_cache
                   (<[path := safe_version h tok]> (version_cache p)) asked)
            end
        end
    end.
Proof.
  intros Hw Hf asked. apply is_ok_inr in Hf as [b Hf].
  unfold get_version, bind, lift, get. rewrite Hf, Hw. simpl.
  destruct (version_cache p !! path) as [v |] eqn:Hc.
  - simpl. rewrite Hc. reflexivity.
  - unfold popen_wait, bind, modify. simpl.
    destruct (popen h [path; "--version"]) as [out |]; [| reflexivity].
    simpl. unfold Py.last_item.
    destruct (last (PyStr.split out)) as [tok |]; [| reflexivity].
    simpl. now rewrite lookup_insert_eq.
Qed.

Lemma get_version_inr h p v p1 :
  get_version h p = (inr v, p1) -> is_ok (found h true) = true.
Proof.
  unfold get_version. intros H.
  apply bind_inr in H as (b & p0 & H & _). apply lift_inr in H as [-> _].
  reflexivity.
Qed.

(** C8. When a call of [get_version] returns, a second call returns the
    same string and leaves the process as it is, so it spawns nothing:
    the two calls together query the version at most once. If the path
    was not cached before the first call, that call spawned exactly one
    query and stored [safe_version] of the last blank-separated word of
    its output under the path; the second call returned that string from
    the cache. *)
Theorem get_version_twice h p path v p1 :
  which h "mrchem.x" = Some path ->
  get_version h p = (inr v, p1) ->
  get_version h p1 = (inr v, p1) /\
  (version_queries path (snd (get_version h p1)) <= version_queries path p + 1)%nat /\
  version_cache p1 !! path = Some v /\
  (version_cache p !! path = None ->
   exists out tok,
     popen h [path; "--version"] = Some out /\
     last (PyStr.split out) = Some tok /\
     v = safe_version h tok /\
     spawned p1 = spawned p ++ [[Some path; Some "--version"]] /\
     version_cache p1 = <[path := safe_version h tok]> (version_cache p)).
Proof.
  intros Hw H. pose proof (get_version_inr _ _ _ _ H) as Hf.
  rewrite (get_version_found h p path Hw Hf) in H.
  assert (Hhit : version_cache p1 !! path = Some v /\
                 (version_queries path p1 <= version_queries path p + 1)%nat).
  { destruct (version_cache p !! path) as [v0 |] eqn:Hc.
    - injection H as <- <-. split; [exact Hc | lia].
    - destruct (popen h [path; "--version"]) as [out |]; [| discriminate H].
      destruct (last (PyStr.split out)) as [tok |]; [| discriminate H].
      injection H as <- <-. simpl. split; [apply lookup_insert_eq |].
      unfold version_queries. simpl. rewrite filter_app, length_app.
      rewrite filter_cons, decide_True by reflexivity. simpl. lia. }
  destruct Hhit as [Hhit Hcount].
  assert (Hsecond : get_version h p1 = (inr v, p1)).
  { rewrite (get_version_found h p1 path Hw Hf). now rewrite Hhit. }
  split; [exact Hsecond |]. rewrite Hsecond. simpl.
  split; [exact Hcount |]. split; [exact Hhit |].
  intros Hmiss. rewrite Hmiss in H.
  destruct (popen h [path; "--version"]) as [out |] eqn:Hp; [| discriminate H].
  destruct (last (PyStr.split out)) as [tok |] eqn:Hl; [| discriminate H].
  injection H as <- <-. exists out, tok. simpl. auto.
Qed.

Lemma get_version_twice_witness :
  exists p1,
    get_version Example.host_ok Example.start = (inr "1.1.0", p1) /\
    get_version Example.host_ok p1 = (inr "1.1.0", p1) /\
    version_queries Example.mrchem_x_path p1 = 1%nat /\
    version_cache p1 !! Example.mrchem_x_path = Some "1.1.0".
Proof.
  pose proof (get_version_twice Example.host_ok Example.start
                Example.mrchem_x_path "1.1.0") as H.
  assert (Hv : fst (get_version Example.host_ok Example.start) = inr "1.1.0")
    by by_running.
  assert (Hq : version_queries Example.mrchem_x_path
                 (snd (get_version Example.host_ok Example.start)) = 1%nat)
    by by_running.
  destruct (get_version Example.host_ok Example.start) as [v p1].
  simpl in Hv, Hq. subst v.
  destruct (H p1 eq_refl eq_refl) as (H1 & _ & H3 & _).
  exists p1. auto.
Defined.

(** Without an answer the cache stays empty, and every call queries
    again. *)
Lemma get_version_asks_again_after_timeout :
  let first := get_version Example.host_silent Example.start in
  let second := get_version Example.host_silent (snd first) in
  fst first = raise (TimeoutExpired [Example.mrchem_x_path; "--version"]) /\
  version_queries Example.mrchem_x_path (snd second) = 2%nat.
Proof. split; by_running. Qed.

(** ** The interpreter search path *)

(** C10. When the driver executable reports a module path (its answer to
    [--module] ends in the word [tok]), a call of [build_input] leaves
    [sys.path] one entry longer, with [tok] appended, whether the call
    then returns or raises; the import of the validator and translator
    sees the path already appended. *)
Theorem build_input_extends_sys_path h input config p path out tok :
  which h "mrchem" = Some path ->
  popen h [path; "--module"] = Some out ->
  last (PyStr.split out) = Some tok ->
  sys_path (snd (build_input h input config p)) = sys_path p ++ [tok] /\
  length (sys_path (snd (build_input h input config p))) = S (length (sys_path p)) /\
  (mrchem_importable h (sys_path p ++ [tok]) = false ->
   fst (build_input h input config p) = raise (ImportError "mrchem")).
Proof.
  intros Hw Hp Ht.
  assert (H : build_input h input config p =
              (if mrchem_importable h (sys_path p ++ [tok])
               then build_mrchemrec h input config
               else raise (ImportError "mrchem"),
               set_sys_path (sys_path p ++ [tok])
                 (set_spawned (spawned p ++ [[Some path; Some "--module"]]) p))).
  { unfold build_input, popen_wait, bind, lift, modify, get. rewrite Hw. simpl.
    rewrite Hp. unfold Py.last_item. cbv beta iota delta [ret throw ok raise].
    rewrite Ht. simpl.
    destruct (mrchem_importable h (sys_path p ++ [tok])); reflexivity. }
  rewrite H. simpl. split; [reflexivity |].
  split; [rewrite length_app; simpl; lia |].
  intros ->. reflexivity.
Qed.

Lemma build_input_extends_sys_path_witness :
  sys_path (snd (build_input Example.host_ok (Example.job "energy") Example.config
                   Example.start)) =
    ["/usr/lib/python3.9"; "/opt/mrchem/lib/python3.9/site-packages"].
Proof.
  destruct (build_input_extends_sys_path Example.host_ok (Example.job "energy")
              Example.config Example.start Example.mrchem_path
              ("/opt/mrchem/lib/python3.9/site-packages" +:+ String PyStr.newline "")
              "/opt/mrchem/lib/python3.9/site-packages")
    as (H & _); [reflexivity | by_running | by_running |].
  rewrite H. reflexivity.
Defined.

(** ** The coordinate text *)

Section Lines.

Local Abbreviation nl := (String PyStr.newline "").

Lemma append_cons (c : ascii) (s t : string) :
  String c s +:+ t = String c (s +:+ t).
Proof. reflexivity. Qed.

Lemma append_nil_r (s : string) : s +:+ "" = s.
Proof.
  induction s as [| c s IH]; [reflexivity |]. now rewrite append_cons, IH.
Qed.

Lemma append_assoc (a b c : string) : (a +:+ b) +:+ c = a +:+ (b +:+ c).
Proof.
  induction a as [| x a IH]; [reflexivity |]. now rewrite !append_cons, IH.
Qed.

Lemma has_newline_app (a b : string) :
  PyStr.has_newline (a +:+ b) = PyStr.has_newline a || PyStr.has_newline b.
Proof.
  induction a as [| c a IH]; [reflexivity |].
  rewrite append_cons. simpl. rewrite IH. now rewrite orb_assoc.
Qed.

Lemma has_newline_spaces (n : nat) : PyStr.has_newline (PyStr.spaces n) = false.
Proof. induction n; simpl; auto. Qed.

(** A piece without line feed is taken into the current line. *)
Lemma lines_from_app (s cur rest : string) :
  PyStr.has_newline s = false ->
  PyStr.lines_from cur (s +:+ rest) = PyStr.lines_from (cur +:+ s) rest.
Proof.
  revert cur. induction s as [| c s IH]; intros cur Hs.
  - now rewrite append_nil_r.
  - simpl in Hs. apply orb_false_elim in Hs as [Hc Hs].
    rewrite append_cons. simpl. rewrite Hc.
    rewrite IH by exact Hs. now rewrite append_assoc.
Qed.

Lemma lines_from_join (l : list string) (cur x : string) :
  PyStr.has_newline x = false ->
  Forall (fun s => PyStr.has_newline s = false) l ->
  PyStr.lines_from cur (PyStr.join nl (x :: l)) = (cur +:+ x) :: l.
Proof.
  unfold PyStr.join. revert cur x.
  induction l as [| y l IH]; intros cur x Hx Hl.
  - simpl. rewrite <- (append_nil_r x) at 1.
    now rewrite lines_from_app.
  - apply Forall_cons in Hl as [Hy Hl].
    change (String.concat nl (x :: y :: l))
      with (x +:+ String PyStr.newline (String.concat nl (y :: l))).
    rewrite lines_from_app by exact Hx.
    change (PyStr.lines_from (cur +:+ x)
              (String PyStr.newline (String.concat nl (y :: l))))
      with ((cur +:+ x) :: PyStr.lines_from "" (String.concat nl (y :: l))).
    now rewrite IH.
Qed.

(** Joining lines with line feeds and cutting the text at the line feeds
    gives the lines back. *)
Lemma lines_join (l : list string) :
  Forall (fun s => PyStr.has_newline s = false /\ s <> "") l ->
  PyStr.lines (PyStr.join nl l) = l.
Proof.
  intros Hl. destruct l as [| x l]; [reflexivity |].
  apply Forall_cons in Hl as [[Hx Hne] Hl].
  assert (Hnl : Forall (fun s => PyStr.has_newline s = false) l).
  { eapply Forall_impl; [exact Hl |]. now intros s [H _]. }
  pose proof (lines_from_join l "" x Hx Hnl) as H.
  change ("" +:+ x) with x in H. unfold PyStr.lines.
  destruct (PyStr.join nl (x :: l)) as [| c t] eqn:E; [| exact H].
  destruct x as [| c x]; [contradiction |].
  unfold PyStr.join in E. destruct l as [| y l].
  - discriminate E.
  - change (String c (x +:+ nl +:+ String.concat nl (y :: l)) = "") in E.
    discriminate E.
Qed.

End Lines.

(** The line of one atom, as [_atoms_formatter] renders it. *)
Lemma atoms_formatter_line h mol i a :
  atoms mol !! i = Some a ->
  exists rest,
    _atoms_formatter h mol atom_format ghost_format 7 12 2 !! i =
      Some (PyStr.ljust 7 (if real a then elem a else "@" +:+ elem a) +:+ rest) /\
    (printable h a = true ->
     PyStr.has_newline
       (PyStr.ljust 7 (if real a then elem a else "@" +:+ elem a) +:+ rest) = false) /\
    rest <> "".
Proof.
  intros Ha. unfold _atoms_formatter. rewrite list_lookup_fmap, Ha. simpl.
  destruct (xyz a) as [[x y] z] eqn:Exyz.
  exists ("  " +:+ fxyz h 7 12 x +:+ "  " +:+ fxyz h 7 12 y +:+ "  " +:+ fxyz h 7 12 z).
  split; [| split; [| discriminate]].
  - f_equal. unfold PyStr.join. simpl. f_equal.
    unfold PyStr.format_elem. destruct (real a); simpl; now rewrite append_nil_r.
  - unfold printable. rewrite Exyz. simpl. intros Hp.
    apply andb_prop in Hp as [He Hp]. apply negb_true_iff in He.
    apply andb_prop in Hp as [Hx Hp]. apply negb_true_iff in Hx.
    apply andb_prop in Hp as [Hy Hp]. apply negb_true_iff in Hy.
    apply andb_prop in Hp as [Hz _]. apply negb_true_iff in Hz.
    unfold PyStr.ljust.
    rewrite !has_newline_app, has_newline_spaces, Hx, Hy, Hz.
    destruct (real a); rewrite ?has_newline_app, He; reflexivity.
Qed.

Lemma real_ghost_length (mol : Molecule) :
  (length (real_atoms mol) + length (ghost_atoms mol))%nat = length (atoms mol).
Proof.
  unfold real_atoms, ghost_atoms.
  induction (atoms mol) as [| a l IH]; [reflexivity |].
  rewrite !filter_cons. destruct (real a) eqn:Er.
  - rewrite decide_True by reflexivity. rewrite decide_False by discriminate.
    simpl. lia.
  - rewrite decide_False by discriminate. rewrite decide_True by reflexivity.
    simpl. lia.
Qed.

(** The coordinate text has the lines of the formatter. *)
Lemma coords_lines h mol :
  forallb (printable h) (atoms mol) = true ->
  PyStr.lines (coords h mol) = _atoms_formatter h mol atom_format ghost_format 7 12 2.
Proof.
  intros Hp. unfold coords. apply lines_join.
  apply Forall_lookup. intros i line Hline.
  assert (Hi : exists a, atoms mol !! i = Some a).
  { unfold _atoms_formatter in Hline. rewrite list_lookup_fmap in Hline.
    destruct (atoms mol !! i) as [a |]; [eauto | discriminate]. }
  destruct Hi as [a Ha].
  destruct (atoms_formatter_line h mol i a Ha) as (rest & Hl & Hnl & Hne).
  rewrite Hl in Hline. injection Hline as <-.
  split.
  - apply Hnl. rewrite forallb_forall in Hp. apply Hp.
    apply list_elem_of_In. eapply list_elem_of_lookup_2. exact Ha.
  - intros Hempty. destruct (PyStr.ljust 7 _); [| discriminate].
    simpl in Hempty. contradiction.
Qed.

(** C9. The coordinate text placed in the [Molecule] block of the options
    has as many lines as the molecule has real atoms and ghost atoms
    together, and the line of each atom starts with its element symbol,
    left-justified in seven columns, with "@" before the symbol exactly
    when the atom is a ghost. *)
Theorem molecule_block_lines h input opts :
  forallb (printable h) (atoms (molecule input)) = true ->
  job_opts h input = inr opts ->
  exists text,
    getitem2 (JObj opts) "Molecule" "coords" = inr (JStr text) /\
    length (PyStr.lines text) =
      (length (real_atoms (molecule input)) +
       length (ghost_atoms (molecule input)))%nat /\
    (forall i a,
       atoms (molecule input) !! i = Some a ->
       exists rest,
         PyStr.lines text !! i =
           Some (PyStr.ljust 7 (if real a then elem a else "@" +:+ elem a)
                 +:+ rest)).
Proof.
  intros Hp Hopts. exists (coords h (molecule input)). split; [| split].
  - unfold job_opts in Hopts.
    apply rbind_inr in Hopts as (charge & _ & Hopts).
    rewrite lookup_insert_ne in Hopts by discriminate.
    assert (Hm : exists wf block,
               opts = <["WaveFunction" := wf]> (<["Molecule" := JObj block]>
                                                  (keywords input)) /\
               block !! "coords" = Some (JStr (coords h (molecule input)))).
    { destruct (keywords input !! "WaveFunction") as [wf |].
      - apply rbind_inr in Hopts as (wf' & _ & Hopts). injection Hopts as <-.
        eexists _, _. split; reflexivity.
      - injection Hopts as <-. eexists _, _. split; reflexivity. }
    destruct Hm as (wf & block & -> & Hc).
    unfold getitem2, Py.getitem. rewrite lookup_insert_ne by discriminate.
    rewrite lookup_insert_eq. simpl. now rewrite Hc.
  - rewrite coords_lines by exact Hp.
    unfold _atoms_formatter. rewrite length_map. symmetry. apply real_ghost_length.
  - intros i a Ha. rewrite coords_lines by exact Hp.
    destruct (atoms_formatter_line h (molecule input) i a Ha) as (rest & Hl & _).
    eauto.
Qed.

Lemma molecule_block_lines_witness :
  exists opts text,
    job_opts Example.host_ok (Example.job "energy") = inr opts /\
    getitem2 (JObj opts) "Molecule" "coords" = inr (JStr text) /\
    length (PyStr.lines text) = (3 + 1)%nat /\
    (exists rest, PyStr.lines text !! 0%nat = Some ("O      " +:+ rest)) /\
    (exists rest, PyStr.lines text !! 3%nat = Some ("@He    " +:+ rest)).
Proof.
  pose proof (molecule_block_lines Example.host_ok (Example.job "energy")) as H.
  assert (Hp : forallb (printable Example.host_ok)
                 (atoms (molecule (Example.job "energy"))) = true) by by_running.
  assert (Ho : is_ok (job_opts Example.host_ok (Example.job "energy")) = true)
    by by_running.
  destruct (job_opts Example.host_ok (Example.job "energy")) as [e | opts];
    simpl in Ho; [discriminate Ho |].
  destruct (H opts Hp eq_refl) as (text & H1 & H2 & H3).
  exists opts, text. split; [reflexivity |]. split; [exact H1 |].
  split; [exact H2 |]. split.
  - exact (H3 0%nat _ eq_refl).
  - exact (H3 3%nat _ eq_refl).
Defined.

(** * Further properties of the harness *)

(** ** What a computation does to the process *)

Section Steps.

Context (R : relation Proc) `{!PreOrder R}.

Lemma steps_ret {A} (x : A) : steps R (ret x).
Proof. intros p. simpl. reflexivity. Qed.

Lemma steps_throw {A} (e : exn) : steps R (@throw A e).
Proof. intros p. simpl. reflexivity. Qed.

Lemma steps_lift {A} (c : res A) : steps R (lift c).
Proof. intros p. simpl. reflexivity. Qed.

Lemma steps_get : steps R get.
Proof. intros p. simpl. reflexivity. Qed.

Lemma steps_modify (f : Proc -> Proc) :
  (forall p, R p (f p)) -> steps R (modify f).
Proof. intros Hf p. simpl. apply Hf. Qed.

Lemma steps_bind {A B} (c : M A) (k : A -> M B) :
  steps R c -> (forall x, steps R (k x)) -> steps R (bind c k).
Proof.
  intros Hc Hk p. unfold bind. specialize (Hc p).
  destruct (c p) as [[e | x] p1]; simpl in *; [exact Hc |].
  transitivity p1; [exact Hc | apply Hk].
Qed.

End Steps.

#[local] Instance same_preorder {X} (obs : Proc -> X) : PreOrder (same obs).
Proof.
  split; [intros p; reflexivity |].
  intros p q r Hpq Hqr. unfold same in *. congruence.
Qed.

#[local] Instance appended_preorder {X} (obs : Proc -> list X) :
  PreOrder (appended obs).
Proof.
  split; [intros p; unfold appended; reflexivity |].
  intros p q r Hpq Hqr. unfold appended in *. etransitivity; eassumption.
Qed.

#[local] Instance dirs_kept_preorder : PreOrder dirs_kept.
Proof.
  split; [intros p; unfold dirs_kept; reflexivity |].
  intros p q r Hpq Hqr. unfold dirs_kept in *. set_solver.
Qed.

(** Takes a computation in the process apart down to its operations; what
    is left are the functions applied to the process. *)
Ltac steps_apart :=
  repeat match goal with
         | |- steps _ (match ?x with _ => _ end) => destruct x
         | |- steps _ (ret _) => apply steps_ret; typeclasses eauto
         | |- steps _ get => apply steps_get; typeclasses eauto
         | |- steps _ (throw _) => apply steps_throw; typeclasses eauto
         | |- steps _ (lift _) => apply steps_lift; typeclasses eauto
         | |- steps _ (bind _ _) => apply steps_bind; [typeclasses eauto | | intros ?]
         | |- steps _ (modify _) => apply steps_modify; intros ?
         | |- steps _ (let _ := _ in _) => progress cbv zeta
         end.

Section Footprint.

Context (R : relation Proc) `{!PreOrder R}.
Hypothesis spawn_ok : forall p l, R p (set_spawned (spawned p ++ l) p).

Lemma popen_wait_steps h args : steps R (popen_wait h args).
Proof. unfold popen_wait. steps_apart. apply spawn_ok. Qed.

Lemma get_version_steps h :
  (forall p c, R p (set_version_cache c p)) -> steps R (get_version h).
Proof.
  intros Hc. unfold get_version. steps_apart;
    first [apply popen_wait_steps | apply Hc].
Qed.

Hypothesis path_ok : forall p l, R p (set_sys_path (sys_path p ++ l) p).

Lemma build_input_steps h input config : steps R (build_input h input config).
Proof.
  unfold build_input. steps_apart; first [apply popen_wait_steps | apply path_ok].
Qed.

Hypothesis dirs_ok : forall p d, dirs p ⊆ d -> R p (set_dirs d p).

Lemma make_folders_steps h ds : steps R (make_folders h ds).
Proof.
  induction ds as [| d ds IH]; simpl; [now apply steps_ret |].
  destruct d; steps_apart; try exact IH. apply dirs_ok. set_solver.
Qed.

Lemma supervise_steps h input config : steps R (supervise h input config).
Proof.
  unfold supervise. steps_apart;
    first [apply build_input_steps | apply make_folders_steps | apply spawn_ok].
Qed.

Lemma compute_steps h input config : steps R (compute h input config).
Proof.
  unfold compute, compute_until_dispatch. steps_apart. apply supervise_steps.
Qed.

End Footprint.

(** Settles what one operation on the process does to an observation. *)
Ltac footprint :=
  intros; unfold same, appended, dirs_kept; simpl;
  first [reflexivity | assumption | apply prefix_app_r; reflexivity].

(** [compute] never touches the version cache, and what it changes only
    grows: entries are appended to [sys.path] and to the log of spawned
    commands, and directories are added, whether it returns or raises. *)
Theorem compute_footprint h input config p :
  version_cache (snd (compute h input config p)) = version_cache p /\
  sys_path p `prefix_of` sys_path (snd (compute h input config p)) /\
  spawned p `prefix_of` spawned (snd (compute h input config p)) /\
  dirs p ⊆ dirs (snd (compute h input config p)).
Proof.
  split; [| split; [| split]].
  - apply (compute_steps (same version_cache)); footprint.
  - apply (compute_steps (appended sys_path)); footprint.
  - apply (compute_steps (appended spawned)); footprint.
  - apply (compute_steps dirs_kept); footprint.
Qed.

(** ** Looking for the executables *)

Lemma found_true_inr h b :
  found h true = inr b ->
  b = true /\ is_Some (which h "mrchem.x") /\ is_Some (which h "mrchem").
Proof.
  unfold found, which_bool.
  destruct (which h "mrchem.x"); simpl; [| discriminate].
  destruct (which h "mrchem"); simpl; [| discriminate].
  intros H. injection H as <-. split; [reflexivity |]. split; eexists; reflexivity.
Qed.

Lemma found_true_inl h e :
  found h true = inl e ->
  exists command,
    (command = "mrchem.x" \/ command = "mrchem") /\
    which h command = None /\
    e = ModuleNotFoundError command install_msg /\
    (command = "mrchem" -> is_Some (which h "mrchem.x")).
Proof.
  unfold found, which_bool.
  destruct (which h "mrchem.x") as [px |] eqn:Hx; simpl.
  - destruct (which h "mrchem") as [pm |] eqn:Hm; simpl; [discriminate |].
    intros H. injection H as <-. exists "mrchem". eauto 6.
  - intros H. injection H as <-. exists "mrchem.x".
    split; [auto |]. split; [exact Hx |]. split; [reflexivity | discriminate].
Qed.

(** [found] with [raise_error=False] never raises and tells whether both
    executables are installed. With [raise_error=True] it never returns
    [False]: it returns [True] exactly when the other form does, and
    otherwise raises [ModuleNotFoundError] with the installation hint,
    for "mrchem.x" if that is missing and else for "mrchem". *)
Theorem found_outcomes h :
  (exists b,
     found h false = inr b /\
     (b = true <-> is_Some (which h "mrchem.x") /\ is_Some (which h "mrchem"))) /\
  (forall b, found h true = inr b -> b = true /\ found h false = inr true) /\
  (forall e,
     found h true = inl e ->
     found h false = inr false /\
     e = ModuleNotFoundError
           (match which h "mrchem.x" with
            | None => "mrchem.x"
            | Some _ => "mrchem"
            end) install_msg).
Proof.
  unfold found, which_bool.
  destruct (which h "mrchem.x") as [px |], (which h "mrchem") as [pm |]; simpl;
    (split; [eexists; split; [reflexivity |] | split]).
  all: try (intros b H; injection H as <-; auto).
  all: try (intros e H; first [discriminate H | injection H as <-]; auto).
  all: try discriminate.
  - split; [intros _; split; eexists; reflexivity | reflexivity].
  - split; [discriminate | intros [_ [x Hx]]; discriminate Hx].
  - split; [discriminate | intros [[x Hx] _]; discriminate Hx].
  - split; [discriminate | intros [[x Hx] _]; discriminate Hx].
Qed.

Lemma found_outcomes_witness :
  found Example.host_ok false = inr true /\
  found (Scenario.without "mrchem" Example.host_ok) false = inr false /\
  found (Scenario.without "mrchem" Example.host_ok) true =
    inl (ModuleNotFoundError "mrchem" install_msg).
Proof.
  split; [| split].
  - destruct (found_outcomes Example.host_ok) as (_ & H & _).
    exact (proj2 (H true eq_refl)).
  - destruct (found_outcomes (Scenario.without "mrchem" Example.host_ok))
      as (_ & _ & H).
    exact (proj1 (H (ModuleNotFoundError "mrchem" install_msg) eq_refl)).
  - destruct (found_outcomes (Scenario.without "mrchem" Example.host_ok))
      as (_ & _ & H).
    destruct (found (Scenario.without "mrchem" Example.host_ok) true)
      as [e | b] eqn:E; [| discriminate E].
    f_equal. exact (proj2 (H e eq_refl)).
Defined.

(** The check for the executables comes first: when one of them is
    missing, [get_version] and [compute] raise the [ModuleNotFoundError]
    of [found] and leave the process as it was; nothing was spawned, no
    directory made, [sys.path] not touched. *)
Theorem missing_executable_stops_first h input config p :
  which h "mrchem.x" = None \/ which h "mrchem" = None ->
  exists command,
    (command = "mrchem.x" \/ command = "mrchem") /\
    which h command = None /\
    get_version h p = (raise (ModuleNotFoundError command install_msg), p) /\
    compute h input config p =
      (raise (ModuleNotFoundError command install_msg), p).
Proof.
  intros Hmiss.
  assert (Hf : exists e, found h true = inl e).
  { destruct (found h true) as [e | b] eqn:E; [eauto |].
    apply found_true_inr in E as (_ & [x Hx] & [y Hy]).
    destruct Hmiss; congruence. }
  destruct Hf as [e Hf].
  destruct (found_true_inl h e Hf) as (command & Hc & Hw & -> & _).
  exists command. split; [exact Hc |]. split; [exact Hw |]. split.
  - unfold get_version, bind, lift. rewrite Hf. reflexivity.
  - unfold compute, compute_until_dispatch, supervise, bind, lift.
    rewrite Hf. reflexivity.
Qed.

Lemma missing_executable_stops_first_witness :
  compute (Scenario.without "mrchem.x" Example.host_ok) (Example.job "energy")
    Example.config Example.start =
    (raise (ModuleNotFoundError "mrchem.x" install_msg), Example.start).
Proof.
  destruct (missing_executable_stops_first
              (Scenario.without "mrchem.x" Example.host_ok)
              (Example.job "energy") Example.config Example.start)
    as (command & Hc & Hw & _ & H); [left; reflexivity |].
  destruct Hc as [-> | ->]; [exact H | discriminate Hw].
Defined.

(** ** [get_version] and the process *)

(** [get_version] leaves [sys.path] and the directories alone and only
    appends to the log of spawned commands. The version cache only grows:
    no entry is removed or changed, no entry is added under another key
    than the path of "mrchem.x", and a call that raises leaves the cache
    as it was. *)
Theorem get_version_footprint h p :
  sys_path (snd (get_version h p)) = sys_path p /\
  dirs (snd (get_version h p)) = dirs p /\
  spawned p `prefix_of` spawned (snd (get_version h p)) /\
  version_cache p ⊆ version_cache (snd (get_version h p)) /\
  (forall k,
     which h "mrchem.x" <> Some k ->
     version_cache (snd (get_version h p)) !! k = version_cache p !! k) /\
  (is_ok (fst (get_version h p)) = false ->
   version_cache (snd (get_version h p)) = version_cache p).
Proof.
  split; [apply (get_version_steps (same sys_path)); footprint |].
  split; [apply (get_version_steps (same dirs)); footprint |].
  split; [apply (get_version_steps (appended spawned)); footprint |].
  destruct (found h true) as [e | b] eqn:Hf.
  - assert (H : get_version h p = (inl e, p)).
    { unfold get_version, bind, lift. now rewrite Hf. }
    rewrite H. simpl. auto.
  - pose proof (found_true_inr h b Hf) as (_ & [path Hx] & _).
    rewrite (get_version_found h p path Hx) by (now rewrite Hf).
    destruct (version_cache p !! path) as [v |] eqn:Hc; [simpl; auto |].
    destruct (popen h [path; "--version"]) as [out |]; [| simpl; auto].
    destruct (last (PyStr.split out)) as [tok |]; [| simpl; auto].
    simpl. split; [now apply insert_subseteq |]. split; [| discriminate].
    intros k Hk. apply lookup_insert_ne. congruence.
Qed.

Lemma get_version_footprint_witness :
  version_cache (snd (get_version Example.host_silent Example.start)) = ∅.
Proof.
  destruct (get_version_footprint Example.host_silent Example.start)
    as (_ & _ & _ & _ & _ & H).
  rewrite H; [reflexivity | by_running].
Defined.

(** ** [build_input] *)

(** [build_input], statement by statement. *)
Lemma build_input_run h input config p :
  build_input h input config p =
    match which h "mrchem" with
    | None =>
        (raise (TypeError "expected str, bytes or os.PathLike object, not NoneType"), p)
    | Some path =>
        let asked := set_spawned (spawned p ++ [[Some path; Some "--module"]]) p in
        match popen h [path; "--module"] with
        | None => (raise (TimeoutExpired [path; "--module"]), asked)
        | Some out =>
            match last (PyStr.split out) with
            | None => (raise IndexError, asked)
            | Some tok =>
                (if mrchem_importable h (sys_path p ++ [tok])
                 then build_mrchemrec h input config
                 else raise (ImportError "mrchem"),
                 set_sys_path (sys_path p ++ [tok]) asked)
            end
        end
    end.
Proof.
  unfold build_input, popen_wait, bind, lift, modify, get.
  destruct (which h "mrchem") as [path |]; [| reflexivity]. simpl.
  destruct (popen h [path; "--module"]) as [out |]; [| reflexivity].
  unfold Py.last_item. cbv beta iota delta [ret throw ok raise].
  destruct (last (PyStr.split out)) as [tok |]; [| reflexivity]. simpl.
  destruct (mrchem_importable h (sys_path p ++ [tok])); reflexivity.
Qed.

Lemma build_input_inr h input config p job p' :
  build_input h input config p = (inr job, p') ->
  exists path out tok,
    which h "mrchem" = Some path /\
    popen h [path; "--module"] = Some out /\
    last (PyStr.split out) = Some tok /\
    mrchem_importable h (sys_path p ++ [tok]) = true /\
    build_mrchemrec h input config = inr job /\
    p' = set_sys_path (sys_path p ++ [tok])
           (set_spawned (spawned p ++ [[Some path; Some "--module"]]) p).
Proof.
  rewrite build_input_run.
  destruct (which h "mrchem") as [path |] eqn:Hw; [| discriminate].
  destruct (popen h [path; "--module"]) as [out |] eqn:Hp; [| discriminate].
  destruct (last (PyStr.split out)) as [tok |] eqn:Ht; [| discriminate].
  destruct (mrchem_importable h (sys_path p ++ [tok])) eqn:Hi; [| discriminate].
  intros H. injection H as H <-. exists path, out, tok. auto 10.
Qed.

(** [build_input] leaves the version cache and the directories alone and
    spawns at most the one [--module] query. It changes [sys.path]
    exactly when the driver executable answered that query with at least
    one word, and it returns only then: without "mrchem", on a timeout or
    on a blank answer it raises with [sys.path] as it was. *)
Theorem build_input_footprint h input config p :
  version_cache (snd (build_input h input config p)) = version_cache p /\
  dirs (snd (build_input h input config p)) = dirs p /\
  (spawned (snd (build_input h input config p)) = spawned p \/
   exists path,
     which h "mrchem" = Some path /\
     spawned (snd (build_input h input config p)) =
       spawned p ++ [[Some path; Some "--module"]]) /\
  (sys_path (snd (build_input h input config p)) <> sys_path p <->
   exists path out tok,
     which h "mrchem" = Some path /\
     popen h [path; "--module"] = Some out /\
     last (PyStr.split out) = Some tok) /\
  (is_ok (fst (build_input h input config p)) = true ->
   sys_path (snd (build_input h input config p)) <> sys_path p).
Proof.
  assert (Hlen : forall tok : string, sys_path p ++ [tok] <> sys_path p).
  { intros tok H. apply (f_equal length) in H. rewrite length_app in H.
    simpl in H. lia. }
  rewrite build_input_run.
  destruct (which h "mrchem") as [path |] eqn:Hw.
  - destruct (popen h [path; "--module"]) as [out |] eqn:Hp.
    + destruct (last (PyStr.split out)) as [tok |] eqn:Ht; simpl.
      * split; [reflexivity |]. split; [reflexivity |]. split; [eauto |].
        split; [| intros _; apply Hlen].
        split; [intros _; eauto 6 | intros _; apply Hlen].
      * split; [reflexivity |]. split; [reflexivity |]. split; [eauto |].
        split; [| discriminate].
        split; [intros H; now contradiction H |].
        intros (path' & out' & tok' & H1 & H2 & H3). congruence.
    + simpl. split; [reflexivity |]. split; [reflexivity |]. split; [eauto |].
      split; [| discriminate].
      split; [intros H; now contradiction H |].
      intros (path' & out' & tok' & H1 & H2 & H3). congruence.
  - simpl. split; [reflexivity |]. split; [reflexivity |]. split; [auto |].
    split; [| discriminate].
    split; [intros H; now contradiction H |].
    intros (path' & out' & tok' & H1 & H2 & H3). congruence.
Qed.

Lemma build_input_footprint_witness :
  sys_path (snd (build_input Example.host_ok (Example.job "energy") Example.config
                   Example.start)) <> sys_path Example.start /\
  sys_path (snd (build_input Example.host_silent (Example.job "energy")
                   Example.config Example.start)) = sys_path Example.start.
Proof.
  split.
  - destruct (build_input_footprint Example.host_ok (Example.job "energy")
                Example.config Example.start) as (_ & _ & _ & _ & H).
    apply H. by_running.
  - destruct (build_input_footprint Example.host_silent (Example.job "energy")
                Example.config Example.start) as (_ & _ & _ & H & _).
    destruct (decide (sys_path (snd (build_input Example.host_silent
                                       (Example.job "energy") Example.config
                                       Example.start)) = sys_path Example.start))
      as [Heq | Hne]; [exact Heq |].
    apply H in Hne as (path & out & tok & _ & Hp & _). discriminate Hp.
Defined.

(** *** The options *)

Lemma avoids_ok {A} bad (x : A) : avoids bad (ok x).
Proof. intros e H. discriminate H. Qed.

Lemma avoids_raise {A} bad (e : exn) : bad e = false -> avoids bad (@raise A e).
Proof. intros He e' H. injection H as <-. exact He. Qed.

Lemma avoids_bind {A B} bad (c : res A) (k : A -> res B) :
  avoids bad c -> (forall x, avoids bad (k x)) -> avoids bad (rbind c k).
Proof.
  intros Hc Hk e H. destruct c as [e' | x]; simpl in H.
  - injection H as <-. now apply Hc.
  - now apply (Hk x).
Qed.

Ltac avoids_apart :=
  repeat match goal with
         | |- avoids _ (match ?x with _ => _ end) => destruct x
         | |- avoids _ (if ?x then _ else _) => destruct x
         | |- avoids _ (ok _) => apply avoids_ok
         | |- avoids _ (raise _) => apply avoids_raise; reflexivity
         | |- avoids _ (rbind _ _) => apply avoids_bind; [| intros ?]
         | |- avoids _ (let _ := _ in _) => progress cbv zeta
         end.

Lemma getitem_no_InputError v k : avoids is_InputError (Py.getitem v k).
Proof. unfold Py.getitem. avoids_apart. Qed.

Lemma setitem_no_InputError v k x : avoids is_InputError (Py.setitem v k x).
Proof. unfold Py.setitem. avoids_apart. Qed.

Lemma job_opts_no_InputError h input : avoids is_InputError (job_opts h input).
Proof.
  unfold job_opts, Py.int_of_float. avoids_apart; apply setitem_no_InputError.
Qed.

Lemma plan_folders_no_InputError v : avoids is_InputError (plan_folders v).
Proof.
  unfold plan_folders, getitem2. avoids_apart; apply getitem_no_InputError.
Qed.

Lemma plan_json_no_InputError v : avoids is_InputError (plan_json v).
Proof.
  unfold plan_json. avoids_apart;
    first [apply getitem_no_InputError | apply setitem_no_InputError].
Qed.

Lemma plan_command_no_InputError h config :
  avoids is_InputError (plan_command h config).
Proof. unfold plan_command, Py.join_words. avoids_apart. Qed.

(** [build_input] after the import, stage by stage. *)
Lemma build_mrchemrec_stages h input config :
  build_mrchemrec h input config =
    let* opts := job_opts h input in
    let* validated := or_input_error (validate h (JObj opts)) in
    let* fs := plan_folders validated in
    let* translated := or_input_error (translate_input h validated) in
    let* doc := plan_json translated in
    let* command := plan_command h config in
    ok {| rec_scratch_directory := scratch_directory config;
          folders := fs;
          mrchem_json := doc;
          command := command |}.
Proof.
  unfold build_mrchemrec, plan_folders, plan_json, plan_command, or_input_error.
  destruct (job_opts h input) as [e | opts]; [reflexivity |]. simpl.
  destruct (validate h (JObj opts)) as [msg | validated]; [reflexivity |]. simpl.
  destruct (getitem2 validated "SCF" "path_checkpoint"); [reflexivity |]. simpl.
  destruct (getitem2 validated "SCF" "path_orbitals"); [reflexivity |]. simpl.
  destruct (getitem2 validated "Response" "path_checkpoint"); [reflexivity |]. simpl.
  destruct (getitem2 validated "Response" "path_orbitals"); [reflexivity |]. simpl.
  destruct (getitem2 validated "Plotter" "path"); [reflexivity |]. simpl.
  destruct (translate_input h validated) as [msg | translated]; [reflexivity |].
  simpl.
  destruct (Py.getitem translated "printer") as [e | printer]; [reflexivity |].
  simpl.
  destruct (Py.setitem printer "file_name" (JStr "data.inp")) as [e | printer'];
    [reflexivity |].
  simpl.
  destruct (Py.setitem translated "printer" printer'); reflexivity.
Qed.

Lemma build_mrchemrec_inr h input config job :
  build_mrchemrec h input config = inr job ->
  exists opts validated translated,
    job_opts h input = inr opts /\
    validate h (JObj opts) = inr validated /\
    plan_folders validated = inr (folders job) /\
    translate_input h validated = inr translated /\
    plan_json translated = inr (mrchem_json job) /\
    rec_scratch_directory job = scratch_directory config /\
    command job =
      (if use_mpiexec config
       then create_mpi_invocation h (which h "mrchem.x") config
       else [which h "mrchem.x"]).
Proof.
  rewrite build_mrchemrec_stages. intros H.
  apply rbind_inr in H as (opts & Ho & H).
  apply rbind_inr in H as (validated & Hv & H).
  apply rbind_inr in H as (fs & Hf & H).
  apply rbind_inr in H as (translated & Ht & H).
  apply rbind_inr in H as (doc & Hd & H).
  apply rbind_inr in H as (cmd & Hc & H). injection H as <-. simpl.
  assert (Hcmd : cmd = if use_mpiexec config
                       then create_mpi_invocation h (which h "mrchem.x") config
                       else [which h "mrchem.x"]).
  { unfold plan_command in Hc. destruct (use_mpiexec config).
    - apply rbind_inr in Hc as (joined & _ & Hc). now injection Hc as <-.
    - now injection Hc as <-. }
  unfold or_input_error in Hv, Ht.
  destruct (validate h (JObj opts)) as [msg | v] eqn:Ev; [discriminate Hv |].
  injection Hv as ->.
  destruct (translate_input h validated) as [msg | t] eqn:Et; [discriminate Ht |].
  injection Ht as ->.
  exists opts, validated, translated. auto 10.
Qed.

(** An [InputError] of [build_input] comes from the validator or from the
    translator and from nowhere else, and its message is what that one
    raised behind "Failure preparing input to MRChem", a line feed and a
    blank. The translator is reached only when the validated options
    hold the five folders. *)
Theorem input_error_wraps h input config m :
  build_mrchemrec h input config = raise (InputError m) <->
  exists opts msg,
    job_opts h input = inr opts /\
    m = "Failure preparing input to MRChem" +:+ String PyStr.newline " " +:+ msg /\
    (validate h (JObj opts) = inl msg \/
     exists validated,
       validate h (JObj opts) = inr validated /\
       is_ok (plan_folders validated) = true /\
       translate_input h validated = inl msg).
Proof.
  rewrite build_mrchemrec_stages. split.
  - intros H.
    destruct (job_opts h input) as [e | opts] eqn:Ho.
    { injection H as ->. now apply job_opts_no_InputError in Ho. }
    simpl in H. exists opts.
    destruct (validate h (JObj opts)) as [msg | validated] eqn:Hv.
    { injection H as <-. exists msg. auto. }
    simpl in H.
    destruct (plan_folders validated) as [e | fs] eqn:Hf.
    { injection H as ->. now apply plan_folders_no_InputError in Hf. }
    simpl in H.
    destruct (translate_input h validated) as [msg | translated] eqn:Ht.
    { injection H as <-. exists msg. split; [reflexivity |].
      split; [reflexivity |]. right. exists validated. now rewrite Hf. }
    simpl in H.
    destruct (plan_json translated) as [e | doc] eqn:Hd.
    { injection H as ->. now apply plan_json_no_InputError in Hd. }
    simpl in H.
    destruct (plan_command h config) as [e | cmd] eqn:Hc; [| discriminate H].
    injection H as ->. now apply plan_command_no_InputError in Hc.
  - intros (opts & msg & -> & -> & [Hv | (validated & Hv & Hf & Ht)]).
    + simpl. rewrite Hv. reflexivity.
    + simpl. rewrite Hv. simpl. apply is_ok_inr in Hf as [fs ->]. simpl.
      rewrite Ht. reflexivity.
Qed.

Lemma input_error_wraps_witness :
  build_mrchemrec (Scenario.rejecting "unknown keyword" Example.host_ok)
    (Example.job "energy") Example.config =
    raise (InputError
             ("Failure preparing input to MRChem" +:+ String PyStr.newline " "
              +:+ "unknown keyword")).
Proof.
  apply (proj2 (input_error_wraps (Scenario.rejecting "unknown keyword" Example.host_ok)
                  (Example.job "energy") Example.config _)).
  assert (Ho : is_ok (job_opts (Scenario.rejecting "unknown keyword" Example.host_ok)
                        (Example.job "energy")) = true) by by_running.
  destruct (job_opts (Scenario.rejecting "unknown keyword" Example.host_ok)
              (Example.job "energy")) as [e | opts];
    simpl in Ho; [discriminate Ho |].
  exists opts, "unknown keyword". split; [reflexivity |].
  split; [reflexivity |]. left. reflexivity.
Defined.

(** What [job_opts] makes of the keywords. *)
Lemma job_opts_inr h input opts :
  job_opts h input = inr opts ->
  exists charge wf,
    Py.int_of_float (molecular_charge (molecule input)) = inr charge /\
    opts =
      <["WaveFunction" := JObj (<["method" := JStr (method (model input))]> wf)]>
        (<["Molecule" :=
             JObj (<["charge" := JInt charge]>
                  (<["multiplicity" := JInt (molecular_multiplicity (molecule input))]>
                  (<["translate" := JBool (fix_com (molecule input))]>
                  (<["coords" := JStr (coords h (molecule input))]> ∅))))]>
           (keywords input)) /\
    (keywords input !! "WaveFunction" = None /\ wf = ∅ \/
     keywords input !! "WaveFunction" = Some (JObj wf)).
Proof.
  unfold job_opts. intros H.
  apply rbind_inr in H as (charge & Hc & H).
  rewrite lookup_insert_ne in H by discriminate.
  exists charge.
  destruct (keywords input !! "WaveFunction") as [v |] eqn:Hk.
  - apply rbind_inr in H as (wf' & Hs & H). injection H as <-.
    destruct v as [| | | | | | wf]; try discriminate Hs.
    injection Hs as <-. exists wf. auto.
  - injection H as <-. exists ∅. auto.
Qed.

(** The options handed to the validator keep every keyword of the caller
    but "Molecule" and "WaveFunction". Their "Molecule" block is made
    anew from the molecule, whatever the caller put under that key: it
    holds the charge as an integer, the multiplicity, [fix_com] as
    "translate" and the coordinate text, and nothing else. *)
Theorem job_opts_keeps_keywords h input opts :
  job_opts h input = inr opts ->
  (forall k,
     k <> "Molecule" -> k <> "WaveFunction" -> opts !! k = keywords input !! k) /\
  exists charge block,
    Py.int_of_float (molecular_charge (molecule input)) = inr charge /\
    opts !! "Molecule" = Some (JObj block) /\
    dom block = ({["charge"; "multiplicity"; "translate"; "coords"]} : gset string) /\
    block !! "charge" = Some (JInt charge) /\
    block !! "multiplicity" = Some (JInt (molecular_multiplicity (molecule input))) /\
    block !! "translate" = Some (JBool (fix_com (molecule input))) /\
    block !! "coords" = Some (JStr (coords h (molecule input))).
Proof.
  intros H. apply job_opts_inr in H as (charge & wf & Hc & -> & _). split.
  - intros k Hm Hw. rewrite !lookup_insert_ne by congruence. reflexivity.
  - eexists charge, _. split; [exact Hc |]. split.
    { rewrite lookup_insert_ne by discriminate. apply lookup_insert_eq. }
    split; [rewrite !dom_insert_L, dom_empty_L; set_solver |].
    split; [reflexivity |]. split; [reflexivity |]. split; reflexivity.
Qed.

Lemma job_opts_keeps_keywords_witness :
  exists opts block,
    job_opts Example.host_ok (Scenario.job_with_keywords "energy") = inr opts /\
    opts !! "world_prec" = Some (JFloat 0.125) /\
    opts !! "Molecule" = Some (JObj block) /\
    block !! "charge" = Some (JInt 0) /\
    block !! "translate" = Some (JBool true).
Proof.
  pose proof (job_opts_keeps_keywords Example.host_ok
                (Scenario.job_with_keywords "energy")) as H.
  assert (Ho : is_ok (job_opts Example.host_ok (Scenario.job_with_keywords "energy"))
               = true) by by_running.
  destruct (job_opts Example.host_ok (Scenario.job_with_keywords "energy"))
    as [e | opts]; simpl in Ho; [discriminate Ho |].
  destruct (H opts eq_refl) as (Hk & charge & block & Hc & Hm & _ & H1 & _ & H3 & _).
  exists opts, block. split; [reflexivity |].
  split; [rewrite Hk by discriminate; reflexivity |].
  split; [exact Hm |]. split; [| exact H3].
  rewrite H1. f_equal. f_equal.
  assert (Hz : Py.int_of_float (molecular_charge
                                  (molecule (Scenario.job_with_keywords "energy")))
               = inr 0) by by_running.
  congruence.
Defined.

(** The "WaveFunction" block handed to the validator holds the method of
    the model, also when the caller's block named another one, and
    besides it exactly what the caller's block held; a caller's
    "WaveFunction" that is no dictionary makes [build_input] fail. *)
Theorem wavefunction_method_set h input opts :
  job_opts h input = inr opts ->
  exists wf,
    opts !! "WaveFunction" = Some (JObj wf) /\
    wf !! "method" = Some (JStr (method (model input))) /\
    (forall v, keywords input !! "WaveFunction" = Some v ->
               exists given, v = JObj given) /\
    (forall k,
       k <> "method" ->
       wf !! k = match keywords input !! "WaveFunction" with
                 | Some (JObj given) => given !! k
                 | _ => None
                 end).
Proof.
  intros H. apply job_opts_inr in H as (charge & wf & _ & -> & Hwf).
  eexists. split; [apply lookup_insert_eq |]. split; [apply lookup_insert_eq |].
  destruct Hwf as [[Hk ->] | Hk]; rewrite Hk.
  - split; [discriminate |]. intros k Hne.
    rewrite lookup_insert_ne by congruence. apply lookup_empty.
  - split; [intros v Hv; injection Hv as <-; eauto |]. intros k Hne.
    now rewrite lookup_insert_ne by congruence.
Qed.

Lemma wavefunction_method_set_witness :
  exists opts wf,
    job_opts Example.host_ok (Scenario.job_with_keywords "energy") = inr opts /\
    opts !! "WaveFunction" = Some (JObj wf) /\
    wf !! "method" = Some (JStr "pbe") /\
    wf !! "restricted" = Some (JBool false).
Proof.
  pose proof (wavefunction_method_set Example.host_ok
                (Scenario.job_with_keywords "energy")) as H.
  assert (Ho : is_ok (job_opts Example.host_ok (Scenario.job_with_keywords "energy"))
               = true) by by_running.
  destruct (job_opts Example.host_ok (Scenario.job_with_keywords "energy"))
    as [e | opts]; simpl in Ho; [discriminate Ho |].
  destruct (H opts eq_refl) as (wf & H1 & H2 & _ & H4).
  exists opts, wf. split; [reflexivity |]. split; [exact H1 |].
  split; [exact H2 |]. rewrite H4 by discriminate. reflexivity.
Defined.

(** *** The execution plan *)

Lemma plan_json_inr translated doc :
  plan_json translated = inr doc ->
  exists items printer,
    translated = JObj items /\
    items !! "printer" = Some (JObj printer) /\
    doc = JObj (<["input" :=
                    JObj (<["printer" :=
                              JObj (<["file_name" := JStr "data.inp"]> printer)]>
                            items)]> ∅).
Proof.
  unfold plan_json. intros H.
  apply rbind_inr in H as (printer & Hp & H).
  apply rbind_inr in H as (printer' & Hs & H).
  apply rbind_inr in H as (opts & Ho & H). injection H as <-.
  destruct translated as [| | | | | | items]; try discriminate Hp.
  simpl in Hp. destruct (items !! "printer") as [x |] eqn:Hx; [| discriminate Hp].
  injection Hp as ->.
  destruct printer as [| | | | | | printer]; try discriminate Hs.
  injection Hs as <-. injection Ho as <-. eauto.
Qed.

(** The native input of a plan that [build_input] returns is a dictionary
    with the one key "input". Under it are the options the translator
    made of the validated options, with "data.inp" as the "file_name" of
    their "printer" block and everything else as the translator left it.
    The validator was given the options of the job, the translator what
    the validator returned. *)
Theorem plan_native_input h input config p job p' :
  build_input h input config p = (inr job, p') ->
  exists opts validated translated printer0 native printer,
    job_opts h input = inr opts /\
    validate h (JObj opts) = inr validated /\
    translate_input h validated = inr (JObj translated) /\
    translated !! "printer" = Some (JObj printer0) /\
    mrchem_json job = JObj (<["input" := JObj native]> ∅) /\
    native !! "printer" = Some (JObj printer) /\
    printer !! "file_name" = Some (JStr "data.inp") /\
    (forall k, k <> "file_name" -> printer !! k = printer0 !! k) /\
    (forall k, k <> "printer" -> native !! k = translated !! k).
Proof.
  intros H. apply build_input_inr in H as (path & out & tok & _ & _ & _ & _ & H & _).
  apply build_mrchemrec_inr in H
    as (opts & validated & translated & Ho & Hv & _ & Ht & Hd & _).
  apply plan_json_inr in Hd as (items & printer0 & -> & Hp & ->).
  exists opts, validated, items, printer0. eexists _, _.
  split; [exact Ho |]. split; [exact Hv |]. split; [exact Ht |].
  split; [exact Hp |]. split; [reflexivity |].
  split; [apply lookup_insert_eq |]. split; [apply lookup_insert_eq |].
  split; intros k Hk; now rewrite lookup_insert_ne by congruence.
Qed.

Lemma plan_native_input_witness :
  exists job p' native printer,
    build_input Example.host_ok (Example.job "energy") Example.config Example.start =
      (inr job, p') /\
    mrchem_json job = JObj (<["input" := JObj native]> ∅) /\
    native !! "printer" = Some (JObj printer) /\
    printer !! "file_name" = Some (JStr "data.inp").
Proof.
  pose proof (plan_native_input Example.host_ok (Example.job "energy")
                Example.config Example.start) as H.
  assert (Hb : is_ok (fst (build_input Example.host_ok (Example.job "energy")
                             Example.config Example.start)) = true) by by_running.
  destruct (build_input Example.host_ok (Example.job "energy") Example.config
              Example.start) as [[e | job] p']; simpl in Hb; [discriminate Hb |].
  destruct (H job p' eq_refl)
    as (opts & validated & translated & printer0 & native & printer &
        _ & _ & _ & _ & Hj & Hp & Hf & _).
  exists job, p', native, printer. auto.
Defined.

Lemma plan_folders_inr validated fs :
  plan_folders validated = inr fs ->
  Forall2 (fun d key => getitem2 validated (fst key) (snd key) = inr d) fs
    [("SCF", "path_checkpoint"); ("SCF", "path_orbitals");
     ("Response", "path_checkpoint"); ("Response", "path_orbitals");
     ("Plotter", "path")].
Proof.
  unfold plan_folders. intros H.
  apply rbind_inr in H as (d1 & H1 & H). apply rbind_inr in H as (d2 & H2 & H).
  apply rbind_inr in H as (d3 & H3 & H). apply rbind_inr in H as (d4 & H4 & H).
  apply rbind_inr in H as (d5 & H5 & H). injection H as <-.
  repeat constructor; assumption.
Qed.

(** A plan that [build_input] returns carries the scratch directory of
    the configuration and five folders, read from the validated options
    in this order: the checkpoint and orbital paths of "SCF", those of
    "Response" and the path of "Plotter". Without MPI its command is the
    one word [which("mrchem.x")]; with MPI, and every word a string, it
    is what [create_mpi_invocation] makes of that word. *)
Theorem plan_folders_and_command h input config p job p' :
  build_input h input config p = (inr job, p') ->
  rec_scratch_directory job = scratch_directory config /\
  (use_mpiexec config = false -> command job = [which h "mrchem.x"]) /\
  (use_mpiexec config = true ->
   Forall is_Some (create_mpi_invocation h (which h "mrchem.x") config) ->
   command job = create_mpi_invocation h (which h "mrchem.x") config) /\
  exists opts validated,
    job_opts h input = inr opts /\
    validate h (JObj opts) = inr validated /\
    Forall2 (fun d key => getitem2 validated (fst key) (snd key) = inr d)
      (folders job)
      [("SCF", "path_checkpoint"); ("SCF", "path_orbitals");
       ("Response", "path_checkpoint"); ("Response", "path_orbitals");
       ("Plotter", "path")].
Proof.
  intros H. apply build_input_inr in H as (path & out & tok & _ & _ & _ & _ & H & _).
  apply build_mrchemrec_inr in H
    as (opts & validated & translated & Ho & Hv & Hf & _ & _ & Hs & Hc).
  split; [exact Hs |]. split; [intros Hm; now rewrite Hm in Hc |].
  split; [intros Hm _; now rewrite Hm in Hc |].
  exists opts, validated. split; [exact Ho |]. split; [exact Hv |].
  now apply plan_folders_inr.
Qed.

Lemma plan_folders_and_command_witness :
  exists job p',
    build_input Example.host_ok (Example.job "energy") Example.config Example.start =
      (inr job, p') /\
    command job = [Some Example.mrchem_x_path] /\
    length (folders job) = 5%nat.
Proof.
  pose proof (plan_folders_and_command Example.host_ok (Example.job "energy")
                Example.config Example.start) as H.
  assert (Hb : is_ok (fst (build_input Example.host_ok (Example.job "energy")
                             Example.config Example.start)) = true) by by_running.
  destruct (build_input Example.host_ok (Example.job "energy") Example.config
              Example.start) as [[e | job] p']; simpl in Hb; [discriminate Hb |].
  destruct (H job p' eq_refl) as (_ & Hc & _ & opts & validated & _ & _ & Hf).
  exists job, p'. split; [reflexivity |]. split; [exact (Hc eq_refl) |].
  apply Forall2_length in Hf. exact Hf.
Defined.

(** ** The folders *)

(** One round of the loop over the folders. *)
Lemma make_folders_cons h d ds p :
  make_folders h (d :: ds) p =
    match d with
    | JStr s =>
        if decide (s ∈ dirs p) then make_folders h ds p
        else if can_mkdir h s
             then make_folders h ds (set_dirs ({[s]} ∪ dirs p) p)
             else (raise (OSError s), p)
    | _ => (raise (TypeError "expected str, bytes or os.PathLike object"), p)
    end.
Proof.
  destruct d; try reflexivity. simpl. unfold bind, get. simpl.
  destruct (decide (s ∈ dirs p)); [reflexivity |].
  destruct (can_mkdir h s); reflexivity.
Qed.

Lemma make_folders_inr h ds p u p' :
  make_folders h ds p = (inr u, p') ->
  Forall (fun d => exists s, d = JStr s /\ s ∈ dirs p') ds /\
  (forall s, s ∈ dirs p' <-> s ∈ dirs p \/ JStr s ∈ ds) /\
  p' = set_dirs (dirs p') p.
Proof.
  revert p. induction ds as [| d ds IH]; intros p H.
  - injection H as _ <-. split; [constructor |]. split; [| now destruct p].
    intros s. split; [auto |]. intros [Hs | Hs]; [exact Hs |]. inversion Hs.
  - rewrite make_folders_cons in H.
    destruct d as [| | | | s | |]; try discriminate H.
    assert (Hgo : exists p1,
               make_folders h ds p1 = (inr u, p') /\ s ∈ dirs p1 /\
               (forall x, x ∈ dirs p1 <-> x ∈ dirs p \/ x = s) /\
               p1 = set_dirs (dirs p1) p).
    { destruct (decide (s ∈ dirs p)) as [Hin | Hout].
      - exists p. split; [exact H |]. split; [exact Hin |].
        split; [| now destruct p]. intros x. split; [auto |].
        intros [Hx | ->]; assumption.
      - destruct (can_mkdir h s); [| discriminate H].
        eexists. split; [exact H |]. simpl.
        split; [apply elem_of_union_l, elem_of_singleton; reflexivity |].
        split; [| reflexivity].
        intros x. rewrite elem_of_union, elem_of_singleton. tauto. }
    destruct Hgo as (p1 & Hrest & Hs & Hd & Hp1).
    destruct (IH p1 Hrest) as (Hall & Hiff & Hp').
    split; [| split].
    + constructor; [| exact Hall]. exists s. split; [reflexivity |].
      apply Hiff. now left.
    + intros x. rewrite Hiff, Hd, elem_of_cons.
      split; [intros [[Hx | ->] | Hx]; auto | intros [Hx | [Hx | Hx]]; auto].
      injection Hx as ->. auto.
    + rewrite Hp', Hp1. reflexivity.
Qed.

Lemma make_folders_present h ds p :
  Forall (fun d => exists s, d = JStr s /\ s ∈ dirs p) ds ->
  make_folders h ds p = (inr tt, p).
Proof.
  induction 1 as [| d ds (s & -> & Hs) _ IH]; [reflexivity |].
  rewrite make_folders_cons. now rewrite decide_True by exact Hs.
Qed.

(** When the loop over the folders gets through, every folder is a path
    that exists afterwards; the directories are then those there before
    and the folders, no other; and a second run of the loop changes
    nothing. A folder listed twice, or there already, is not made again. *)
Theorem make_folders_creates_missing h ds p u p' :
  make_folders h ds p = (inr u, p') ->
  (forall d, d ∈ ds -> exists s, d = JStr s /\ s ∈ dirs p') /\
  (forall s, s ∈ dirs p' <-> s ∈ dirs p \/ JStr s ∈ ds) /\
  make_folders h ds p' = (inr tt, p').
Proof.
  intros H. apply make_folders_inr in H as (Hall & Hiff & _).
  split; [| split; [exact Hiff |]].
  - intros d Hd. rewrite Forall_forall in Hall. now apply Hall.
  - now apply make_folders_present.
Qed.

Lemma make_folders_creates_missing_witness :
  exists p',
    make_folders Example.host_ok
      [JStr "checkpoint"; JStr "orbitals"; JStr "checkpoint"]
      Scenario.start_with_checkpoint = (inr tt, p') /\
    "orbitals" ∈ dirs p' /\
    ("plots" ∉ dirs p').
Proof.
  pose proof (make_folders_creates_missing Example.host_ok
                [JStr "checkpoint"; JStr "orbitals"; JStr "checkpoint"]
                Scenario.start_with_checkpoint tt) as H.
  assert (Hb : is_ok (fst (make_folders Example.host_ok
                             [JStr "checkpoint"; JStr "orbitals"; JStr "checkpoint"]
                             Scenario.start_with_checkpoint)) = true) by by_running.
  destruct (make_folders Example.host_ok
              [JStr "checkpoint"; JStr "orbitals"; JStr "checkpoint"]
              Scenario.start_with_checkpoint) as [[e | []] p'];
    simpl in Hb; [discriminate Hb |].
  destruct (H p' eq_refl) as (_ & Hiff & _).
  exists p'. split; [reflexivity |]. split.
  - apply Hiff. right. apply list_elem_of_In. simpl. auto.
  - rewrite Hiff. intros [Hs | Hs].
    + change (dirs Scenario.start_with_checkpoint)
        with ({["checkpoint"]} : gset string) in Hs.
      apply elem_of_singleton in Hs. discriminate Hs.
    + apply list_elem_of_In in Hs. simpl in Hs. intuition discriminate.
Defined.

(** When the loop over the folders fails, it has gone through the folders
    before the failing one, whose directories stay, and stopped there:
    at a folder that is no string, with [TypeError], or at a path that
    does not exist and cannot be made, with the [OSError] of [mkdir]. *)
Theorem make_folders_failure h ds p e p' :
  make_folders h ds p = (inl e, p') ->
  exists done d rest,
    ds = done ++ d :: rest /\
    make_folders h done p = (inr tt, p') /\
    ((e = TypeError "expected str, bytes or os.PathLike object" /\
      forall s, d <> JStr s) \/
     (exists s,
        d = JStr s /\ e = OSError s /\ (s ∉ dirs p') /\ can_mkdir h s = false)).
Proof.
  revert p. induction ds as [| d ds IH]; intros p H; [discriminate H |].
  rewrite make_folders_cons in H.
  assert (Hstop : (forall s, d <> JStr s) ->
                  e = TypeError "expected str, bytes or os.PathLike object" ->
                  p' = p ->
                  exists done d0 rest,
                    d :: ds = done ++ d0 :: rest /\
                    make_folders h done p = (inr tt, p') /\
                    ((e = TypeError "expected str, bytes or os.PathLike object" /\
                      forall s, d0 <> JStr s) \/
                     (exists s, d0 = JStr s /\ e = OSError s /\ (s ∉ dirs p') /\
                                can_mkdir h s = false))).
  { intros Hd -> ->. exists [], d, ds. split; [reflexivity |].
    split; [reflexivity |]. left. auto. }
  destruct d as [| b | z | f | s | l | m];
    try (injection H as <- <-; apply Hstop; [discriminate | reflexivity ..]).
  clear Hstop.
  assert (Hnext : forall p1,
             make_folders h [JStr s] p = (inr tt, p1) ->
             make_folders h ds p1 = (inl e, p') ->
             exists done d0 rest,
               JStr s :: ds = done ++ d0 :: rest /\
               make_folders h done p = (inr tt, p') /\
               ((e = TypeError "expected str, bytes or os.PathLike object" /\
                 forall s, d0 <> JStr s) \/
                (exists s, d0 = JStr s /\ e = OSError s /\ (s ∉ dirs p') /\
                           can_mkdir h s = false))).
  { intros p1 H1 Hrest.
    destruct (IH p1 Hrest) as (done & d0 & rest & -> & Hdone & Hwhy).
    exists (JStr s :: done), d0, rest. split; [reflexivity |].
    split; [| exact Hwhy].
    rewrite make_folders_cons in H1 |- *.
    destruct (decide (s ∈ dirs p)); [injection H1 as <-; exact Hdone |].
    destruct (can_mkdir h s); [injection H1 as <-; exact Hdone | discriminate H1]. }
  destruct (decide (s ∈ dirs p)) as [Hin | Hout].
  - apply (Hnext p); [| exact H].
    rewrite make_folders_cons. now rewrite decide_True by exact Hin.
  - destruct (can_mkdir h s) eqn:Hmk.
    + apply (Hnext _ ltac:(rewrite make_folders_cons, decide_False, Hmk by exact Hout;
                           reflexivity) H).
    + injection H as <- <-. exists [], (JStr s), ds. split; [reflexivity |].
      split; [reflexivity |]. right. exists s. auto.
Qed.

Lemma make_folders_failure_witness :
  exists p',
    make_folders (Scenario.unwritable "orbitals" Example.host_ok)
      [JStr "checkpoint"; JStr "orbitals"; JStr "plots"] Example.start =
      (inl (OSError "orbitals"), p') /\
    make_folders (Scenario.unwritable "orbitals" Example.host_ok)
      [JStr "checkpoint"] Example.start = (inr tt, p').
Proof.
  pose proof (make_folders_failure (Scenario.unwritable "orbitals" Example.host_ok)
                [JStr "checkpoint"; JStr "orbitals"; JStr "plots"] Example.start
                (OSError "orbitals")) as H.
  assert (Hb : fst (make_folders (Scenario.unwritable "orbitals" Example.host_ok)
                      [JStr "checkpoint"; JStr "orbitals"; JStr "plots"]
                      Example.start) = inl (OSError "orbitals")) by by_running.
  destruct (make_folders (Scenario.unwritable "orbitals" Example.host_ok)
              [JStr "checkpoint"; JStr "orbitals"; JStr "plots"] Example.start)
    as [r p']; simpl in Hb; subst r.
  exists p'. split; [reflexivity |].
  destruct (H p' eq_refl) as (done & d & rest & Hds & Hdone & [[Hty _] | Hos]).
  - discriminate Hty.
  - destruct Hos as (s & -> & Hs & _). injection Hs as <-.
    destruct done as [| d1 done]; [discriminate Hds |].
    injection Hds as <- Hds.
    destruct done as [| d2 done]; [exact Hdone |].
    injection Hds as <- Hds.
    destruct done as [| d3 done]; [discriminate Hds |].
    injection Hds as _ Hds. destruct done; discriminate Hds.
Defined.

(** ** The supervised execution *)

Lemma supervise_inr h input config p job raw p' :
  supervise h input config p = (inr (job, raw), p') ->
  exists p1 p2,
    is_ok (found h true) = true /\
    build_input h input config p = (inr job, p1) /\
    make_folders h (folders job) p1 = (inr tt, p2) /\
    p' = set_spawned (spawned p2 ++ [command job ++ [Some "data.json"]]) p2 /\
    raw = execute h (command job ++ [Some "data.json"])
            (json_dumps h (mrchem_json job))
            (temporary_directory h (scratch_directory config)).
Proof.
  unfold supervise. intros H.
  apply bind_inr in H as (b & p0 & Hf & H). apply lift_inr in Hf as [Hf ->].
  apply bind_inr in H as (job' & p1 & Hb & H).
  apply bind_inr in H as ([] & p2 & Hm & H).
  apply bind_inr in H as ([] & p3 & Hs & H).
  injection Hs as <-. injection H as <- <- <-.
  exists p1, p2. rewrite Hf. auto 10.
Qed.

(** Whenever [compute] gets to run the program, it has by then spawned
    two commands and no more: the [--module] query of the driver and the
    command of the plan followed by "data.json", which without MPI is the
    path of "mrchem.x" and "data.json". Every folder of the plan then
    exists; the program was handed the JSON text of the plan's native
    input and the temporary directory under the scratch directory of the
    configuration. *)
Theorem execution_follows_preparation h input config p job raw p' :
  supervise h input config p = (inr (job, raw), p') ->
  exists path xpath,
    which h "mrchem" = Some path /\
    which h "mrchem.x" = Some xpath /\
    spawned p' =
      spawned p ++ [[Some path; Some "--module"]; command job ++ [Some "data.json"]] /\
    (use_mpiexec config = false ->
     command job ++ [Some "data.json"] = [Some xpath; Some "data.json"]) /\
    (forall d, d ∈ folders job -> exists s, d = JStr s /\ s ∈ dirs p') /\
    raw = execute h (command job ++ [Some "data.json"])
            (json_dumps h (mrchem_json job))
            (temporary_directory h (scratch_directory config)).
Proof.
  intros H. apply supervise_inr in H as (p1 & p2 & Hf & Hb & Hm & -> & ->).
  apply is_ok_inr in Hf as [b Hf].
  apply found_true_inr in Hf as (_ & [xpath Hx] & _).
  apply build_input_inr in Hb as (path & out & tok & Hw & _ & _ & _ & Hrec & ->).
  apply build_mrchemrec_inr in Hrec as (_ & _ & _ & _ & _ & _ & _ & _ & _ & Hc).
  apply make_folders_inr in Hm as (Hall & _ & Hp2).
  exists path, xpath. split; [exact Hw |]. split; [exact Hx |]. split.
  { rewrite Hp2. simpl. now rewrite <- app_assoc. }
  split; [intros Hmpi; rewrite Hc, Hmpi, Hx; reflexivity |].
  split; [| reflexivity].
  intros d Hd. rewrite Forall_forall in Hall. exact (Hall d Hd).
Qed.

Lemma execution_follows_preparation_witness :
  exists job raw p',
    supervise Example.host_ok (Example.job "energy") Example.config Example.start =
      (inr (job, raw), p') /\
    spawned p' =
      [[Some Example.mrchem_path; Some "--module"];
       [Some Example.mrchem_x_path; Some "data.json"]].
Proof.
  pose proof (execution_follows_preparation Example.host_ok (Example.job "energy")
                Example.config Example.start) as H.
  assert (Hb : is_ok (fst (supervise Example.host_ok (Example.job "energy")
                             Example.config Example.start)) = true) by by_running.
  destruct (supervise Example.host_ok (Example.job "energy") Example.config
              Example.start) as [[e | [job raw]] p'];
    simpl in Hb; [discriminate Hb |].
  destruct (H job raw p' eq_refl) as (path & xpath & Hw & Hx & Hs & Hc & _).
  exists job, raw, p'. split; [reflexivity |].
  rewrite Hs, (Hc eq_refl). injection Hw as <-. injection Hx as <-. reflexivity.
Defined.

(** ** The returned result *)

(** A result that [compute] returns, in full. *)
Lemma compute_returns_record h input config p r p' :
  compute h input config p = (inr r, p') ->
  exists job output out flag props filled prov,
    supervise h input config p = (inr (job, (true, output)), p') /\
    extract_properties h input output = inr (out, flag, props) /\
    Py.is_False flag = false /\
    fill_return_result input out props = inr filled /\
    Py.getitem out "provenance" = inr (JObj prov) /\
    r = successful_result h input config job output flag filled prov.
Proof.
  intros H. apply compute_inr in H as (job & s & o & st & Hs & Hn & Hd & Hf).
  apply dispatch_inr in Hd. destruct s.
  - apply normalize_success_inr in Hn as (out & flag & props & filled & H1 & H2 & ->).
    simpl in Hd. unfold finish in Hf. simpl in Hf.
    apply rbind_inr in Hf as (prov & Hp & Hf).
    apply rbind_inr in Hf as (prov' & Hset & Hf). injection Hf as <-.
    destruct prov as [| | | | | | prov]; try discriminate Hset.
    injection Hset as <-.
    exists job, o, out, flag, props, filled, prov. auto 10.
  - injection Hn as <-. discriminate Hd.
Qed.

(** [compute] gets to the call of [AtomicResult] in its last line exactly
    when the supervised execution succeeded, the native output could be
    read and the properties table filled from it, the success the
    program wrote is not the object [False], the driver is "energy" or
    "properties" (with a dipole moment for the latter) and the native
    output holds a provenance dictionary; the keyword arguments of the
    call are then the ones these determine. What the constructor makes
    of the arguments is not decided in [mrchem.py]. *)
Theorem constructor_reached_exactly_when h input config p r p' :
  atomic_result_arguments h input config p = (inr r, p') <->
  exists job output out flag props filled prov,
    supervise h input config p = (inr (job, (true, output)), p') /\
    extract_properties h input output = inr (out, flag, props) /\
    Py.is_False flag = false /\
    fill_return_result input out props = inr filled /\
    Py.getitem out "provenance" = inr (JObj prov) /\
    r = successful_result h input config job output flag filled prov.
Proof.
  unfold atomic_result_arguments. split; [apply compute_returns_record |].
  intros (job & output & out & flag & props & filled & prov &
          Hs & Hx & Hflag & Hf & Hprov & ->).
  rewrite (compute_after_supervise _ _ _ _ _ _ _ _ Hs).
  unfold normalize. rewrite Hx. simpl. rewrite Hf. simpl.
  apply extract_properties_inr in Hx as (_ & Hsuccess & _).
  rewrite Hsuccess. simpl.
  unfold dispatch. simpl. rewrite Hflag. simpl.
  unfold finish. simpl. rewrite Hprov. reflexivity.
Qed.

Lemma constructor_reached_exactly_when_witness :
  exists r p',
    atomic_result_arguments Example.host_ok (Example.job "properties")
      Example.config Example.start = (inr r, p') /\
    od_driver r = Some "properties" /\
    od_stdout r = Some "done" /\
    od_stderr r = None.
Proof.
  assert (Hb : is_ok (fst (atomic_result_arguments Example.host_ok
                             (Example.job "properties") Example.config
                             Example.start)) = true) by by_running.
  destruct (atomic_result_arguments Example.host_ok (Example.job "properties")
              Example.config Example.start) as [[e | r] p'] eqn:Hc;
    simpl in Hb; [discriminate Hb |].
  exists r, p'. split; [reflexivity |].
  destruct (proj1 (constructor_reached_exactly_when Example.host_ok
                     (Example.job "properties") Example.config Example.start r p')
              Hc)
    as (job & output & out & flag & props & filled & prov & Hs & _ & _ & _ & _ & ->).
  simpl. split; [reflexivity |]. split; [| reflexivity].
  assert (Hraw : match fst (supervise Example.host_ok (Example.job "properties")
                              Example.config Example.start) with
                 | inr (_, raw) => bool_decide (raw = (true, Example.ran "done" ""))
                 | inl _ => false
                 end = true) by by_running.
  rewrite Hs in Hraw. simpl in Hraw. apply bool_decide_eq_true in Hraw.
  injection Hraw as ->. reflexivity.
Defined.

(** A returned result echoes the job: its model, its molecule and its
    driver are the job's, the schema is "qcschema_output" in version 1,
    and [stdout] is what the run of the program printed, with no
    [stderr]. Its [keywords] are not the caller's keywords but the native
    input of the plan, the translated options the program was given. *)
Theorem returned_result_echoes_job h input config p r p' :
  compute h input config p = (inr r, p') ->
  od_model r = model input /\
  od_molecule r = molecule input /\
  od_driver r = Some (driver input) /\
  od_schema_name r = "qcschema_output" /\
  od_schema_version r = 1 /\
  od_stderr r = None /\
  exists job output,
    supervise h input config p = (inr (job, (true, output)), p') /\
    od_keywords r = mrchem_json job /\
    od_stdout r = Some (stdout output).
Proof.
  intros H. apply compute_returns_record in H
    as (job & output & out & flag & props & filled & prov & Hs & _ & _ & _ & _ & ->).
  simpl. do 6 (split; [reflexivity |]). exists job, output. auto.
Qed.

Lemma returned_result_echoes_job_witness :
  exists r p',
    compute Example.host_ok (Scenario.job_with_keywords "energy") Example.config
      Example.start = (inr r, p') /\
    od_molecule r = Example.water_he /\
    od_driver r = Some "energy" /\
    od_keywords r <> JObj (keywords (Scenario.job_with_keywords "energy")).
Proof.
  pose proof (returned_result_echoes_job Example.host_ok
                (Scenario.job_with_keywords "energy") Example.config Example.start)
    as H.
  assert (Hb : match fst (compute Example.host_ok (Scenario.job_with_keywords "energy")
                            Example.config Example.start) with
               | inr r => is_ok (Py.getitem (od_keywords r) "input")
               | inl _ => false
               end = true) by by_running.
  destruct (compute Example.host_ok (Scenario.job_with_keywords "energy")
              Example.config Example.start) as [[e | r] p'];
    simpl in Hb; [discriminate Hb |].
  destruct (H r p' eq_refl) as (_ & Hm & Hd & _).
  exists r, p'. split; [reflexivity |]. split; [exact Hm |]. split; [exact Hd |].
  intros Hk. rewrite Hk in Hb. discriminate Hb.
Defined.

(** The [success] argument of the call of [AtomicResult] is the value the
    program wrote under "success" in its native output, handed on as it
    is. It is never the object [False], which the dispatch of errors
    stops, but it need not be [True]: [null] or a number is not the
    object [False] and gets to the constructor. *)
Theorem success_argument_is_native_flag h input config p r p' :
  atomic_result_arguments h input config p = (inr r, p') ->
  exists job output out flag,
    supervise h input config p = (inr (job, (true, output)), p') /\
    read_output h output = inr out /\
    Py.getitem out "success" = inr flag /\
    od_success r = Some flag /\
    flag <> JBool false.
Proof.
  unfold atomic_result_arguments.
  intros H. apply compute_returns_record in H
    as (job & output & out & flag & props & filled & prov &
        Hs & Hx & Hflag & _ & _ & ->).
  apply extract_properties_inr in Hx as (Hout & Hsuccess & _).
  exists job, output, out, flag. split; [exact Hs |]. split; [exact Hout |].
  split; [exact Hsuccess |]. split; [reflexivity |].
  intros ->. discriminate Hflag.
Qed.

Lemma success_argument_is_native_flag_witness :
  exists r p',
    atomic_result_arguments Scenario.host_null (Example.job "energy")
      Example.config Example.start = (inr r, p') /\
    od_success r = Some JNull.
Proof.
  pose proof (success_argument_is_native_flag Scenario.host_null
                (Example.job "energy") Example.config Example.start) as H.
  assert (Hraw : match fst (supervise Scenario.host_null (Example.job "energy")
                              Example.config Example.start) with
                 | inr (_, raw) => bool_decide (raw = (true, Example.ran "done" ""))
                 | inl _ => false
                 end = true) by by_running.
  assert (Hb : is_ok (fst (atomic_result_arguments Scenario.host_null
                             (Example.job "energy") Example.config
                             Example.start)) = true) by by_running.
  destruct (atomic_result_arguments Scenario.host_null (Example.job "energy")
              Example.config Example.start) as [[e | r] p'];
    simpl in Hb; [discriminate Hb |].
  exists r, p'. split; [reflexivity |].
  destruct (H r p' eq_refl) as (job & output & out & flag & Hs & Hout & Hflag & Hr & _).
  rewrite Hs in Hraw. simpl in Hraw. apply bool_decide_eq_true in Hraw.
  injection Hraw as ->.
  assert (Hnative : read_output Scenario.host_null (Example.ran "done" "") =
                    inr (Example.native_output JNull (JFloat (-76)))) by by_running.
  rewrite Hnative in Hout. injection Hout as <-.
  assert (Hnull : Py.getitem (Example.native_output JNull (JFloat (-76))) "success"
                  = inr JNull) by by_running.
  rewrite Hnull in Hflag. injection Hflag as <-. exact Hr.
Defined.

(** The provenance of a returned result is the provenance dictionary of
    the native output with "memory" set to the memory of the
    configuration, rounded to three decimals; a "memory" the program
    wrote itself is overwritten and every other entry kept. *)
Theorem provenance_memory h input config p r p' :
  compute h input config p = (inr r, p') ->
  exists job output out prov prov',
    supervise h input config p = (inr (job, (true, output)), p') /\
    read_output h output = inr out /\
    Py.getitem out "provenance" = inr (JObj prov) /\
    od_provenance r = Some (JObj prov') /\
    prov' !! "memory" = Some (JFloat (round3 h (memory config))) /\
    (forall k, k <> "memory" -> prov' !! k = prov !! k).
Proof.
  intros H. apply compute_returns_record in H
    as (job & output & out & flag & props & filled & prov & Hs & Hx & _ & _ & Hp & ->).
  apply extract_properties_inr in Hx as (Hout & _).
  exists job, output, out, prov. eexists.
  split; [exact Hs |]. split; [exact Hout |]. split; [exact Hp |].
  split; [reflexivity |]. split; [apply lookup_insert_eq |].
  intros k Hk. now rewrite lookup_insert_ne by congruence.
Qed.

Lemma provenance_memory_witness :
  exists r p' prov',
    compute Example.host_ok (Example.job "energy") Example.config Example.start =
      (inr r, p') /\
    od_provenance r = Some (JObj prov') /\
    prov' !! "memory" = Some (JFloat 1).
Proof.
  pose proof (provenance_memory Example.host_ok (Example.job "energy")
                Example.config Example.start) as H.
  assert (Hb : is_ok (fst (compute Example.host_ok (Example.job "energy")
                             Example.config Example.start)) = true) by by_running.
  destruct (compute Example.host_ok (Example.job "energy") Example.config
              Example.start) as [[e | r] p'];
    simpl in Hb; [discriminate Hb |].
  destruct (H r p' eq_refl)
    as (job & output & out & prov & prov' & _ & _ & _ & Hp & Hm & _).
  exists r, p', prov'. split; [reflexivity |]. split; [exact Hp | exact Hm].
Defined.

(** The errors of the dispatch are out of reach: no run of [compute]
    ends in [RandomError] or in [UnknownError], whatever the host, the
    job and the process. *)
Theorem dispatch_errors_unreachable h input config p msg :
  fst (compute h input config p) <> raise (RandomError msg) /\
  fst (compute h input config p) <> raise (UnknownError msg).
Proof.
  destruct (compute h input config p) as [[e | r] p'] eqn:H; simpl;
    [| split; discriminate].
  apply compute_never_classifies in H.
  split; intros He; injection He as ->; discriminate H.
Qed.

(** ** The properties table *)

(** What the [if]/[elif] on the driver makes of the table. *)
Lemma fill_return_result_cases input out props filled :
  fill_return_result input out props = inr filled ->
  (driver input = "energy" /\
   scf_energy out "E_tot" = inr (snd filled) /\ fst filled = props) \/
  (driver input = "properties" /\
   dipole_vector out = inr (snd filled) /\
   fst filled = <["scf_dipole_moment" := snd filled]> props).
Proof.
  unfold fill_return_result. intros H.
  destruct (String.eqb (driver input) "energy") eqn:Ed.
  - apply String.eqb_eq in Ed. apply rbind_inr in H as (e & He & H).
    injection H as <-. left. auto.
  - destruct (String.eqb (driver input) "properties") eqn:Ep; [| discriminate H].
    apply String.eqb_eq in Ep.
    apply rbind_inr in H as (v & Hv & H). rewrite Hv in H. injection H as <-.
    right. auto.
Qed.

(** The properties of a returned result, traced back to the native
    output they were read from. *)
Lemma returned_properties h input config p r p' :
  compute h input config p = (inr r, p') ->
  exists job output out occs props filled,
    supervise h input config p = (inr (job, (true, output)), p') /\
    read_output h output = inr out /\
    fill_properties input out occs = inr props /\
    fill_return_result input out props = inr filled /\
    od_properties r = fst filled /\
    od_return_result r = Some (snd filled).
Proof.
  intros H. apply compute_returns_record in H
    as (job & output & out & flag & props & filled & prov & Hs & Hx & _ & Hf & _ & ->).
  apply extract_properties_inr in Hx as (Hout & _ & spin & occs & _ & _ & Hp).
  exists job, output, out, occs, props, filled. auto 10.
Qed.

(** For the driver "properties", when the supervised execution succeeded
    and the native output it left holds [v] as the vector of its dipole
    moment "dip-1", a result that [compute] returns has [v] as its
    [return_result] and as its [scf_dipole_moment], and still the total
    energy as its [return_energy]. *)
Theorem dipole_result h input config p job output out v r p1 p' :
  driver input = "properties" ->
  supervise h input config p = (inr (job, (true, output)), p1) ->
  read_output h output = inr out ->
  dipole_vector out = inr v ->
  compute h input config p = (inr r, p') ->
  od_return_result r = Some v /\
  od_properties r !! "scf_dipole_moment" = Some v /\
  exists e,
    scf_energy out "E_tot" = inr e /\
    od_properties r !! "return_energy" = Some e.
Proof.
  intros Hd Hs Hout Hv H.
  apply returned_properties in H
    as (job' & o & out' & occs & props & filled & Hs' & Hout' & Hp & Hf & -> & ->).
  rewrite Hs in Hs'. injection Hs' as <- <- _.
  rewrite Hout in Hout'. injection Hout' as <-.
  apply fill_properties_inr in Hp as (_ & _ & _ & _ & e & He & Hr & _).
  apply fill_return_result_cases in Hf as [(Hd' & _) | (_ & Hv' & ->)];
    [congruence |].
  rewrite Hv in Hv'. injection Hv' as <-.
  split; [reflexivity |]. split; [apply lookup_insert_eq |].
  exists e. split; [exact He |]. now rewrite lookup_insert_ne by discriminate.
Qed.

Lemma dipole_result_witness :
  exists r p',
    compute Example.host_ok (Example.job "properties") Example.config Example.start =
      (inr r, p') /\
    od_return_result r = Some (JArr (map JFloat [0; 0; 0.75]%float)) /\
    od_properties r !! "scf_dipole_moment" =
      Some (JArr (map JFloat [0; 0; 0.75]%float)).
Proof.
  pose proof (dipole_result Example.host_ok (Example.job "properties")
                Example.config Example.start) as H.
  assert (Hs : match fst (supervise Example.host_ok (Example.job "properties")
                            Example.config Example.start) with
               | inr (_, raw) => bool_decide (raw = (true, Example.ran "done" ""))
               | inl _ => false
               end = true) by by_running.
  assert (Hc : is_ok (fst (compute Example.host_ok (Example.job "properties")
                             Example.config Example.start)) = true) by by_running.
  destruct (supervise Example.host_ok (Example.job "properties") Example.config
              Example.start) as [[e | [job raw]] p1];
    simpl in Hs; [discriminate Hs |].
  apply bool_decide_eq_true in Hs. subst raw.
  destruct (compute Example.host_ok (Example.job "properties") Example.config
              Example.start) as [[e | r] p'];
    simpl in Hc; [discriminate Hc |].
  exists r, p'. split; [reflexivity |].
  destruct (H job (Example.ran "done" "")
              (Example.native_output (JBool true) (JFloat (-76)))
              (JArr (map JFloat [0; 0; 0.75]%float)) r p1 p')
    as (H1 & H2 & _); first [reflexivity | by_running | auto].
Defined.

Lemma fill_properties_dom input out occs props :
  fill_properties input out occs = inr props -> dom props = property_keys.
Proof.
  unfold fill_properties. intros H. open_res H. injection H as <-.
  rewrite !dom_insert_L, dom_empty_L. unfold property_keys. set_solver.
Qed.

(** The properties of a returned result have the eleven keys of the
    table, and "scf_dipole_moment" besides them exactly when the driver
    is "properties". *)
Theorem properties_keys h input config p r p' :
  compute h input config p = (inr r, p') ->
  dom (od_properties r) =
    (if String.eqb (driver input) "properties"
     then {["scf_dipole_moment"]} ∪ property_keys
     else property_keys).
Proof.
  intros H. apply returned_properties in H
    as (job & o & out & occs & props & filled & _ & _ & Hp & Hf & -> & _).
  apply fill_properties_dom in Hp.
  apply fill_return_result_cases in Hf as [(Hd & _ & ->) | (Hd & _ & ->)];
    rewrite Hd; simpl; [exact Hp |].
  now rewrite dom_insert_L, Hp.
Qed.

Lemma properties_keys_witness :
  exists r p',
    compute Example.host_ok (Example.job "energy") Example.config Example.start =
      (inr r, p') /\
    od_properties r !! "scf_dipole_moment" = None /\
    is_Some (od_properties r !! "scf_iterations").
Proof.
  pose proof (properties_keys Example.host_ok (Example.job "energy")
                Example.config Example.start) as H.
  assert (Hb : is_ok (fst (compute Example.host_ok (Example.job "energy")
                             Example.config Example.start)) = true) by by_running.
  destruct (compute Example.host_ok (Example.job "energy") Example.config
              Example.start) as [[e | r] p'];
    simpl in Hb; [discriminate Hb |].
  specialize (H r p' eq_refl). simpl in H.
  exists r, p'. split; [reflexivity |]. split.
  - apply not_elem_of_dom. rewrite H. unfold property_keys.
    rewrite !not_elem_of_union, !not_elem_of_singleton.
    repeat split; discriminate.
  - apply elem_of_dom. rewrite H. unfold property_keys.
    apply elem_of_union_r, elem_of_singleton. reflexivity.
Defined.

(** The one-electron energy of a returned result is the sum of the
    kinetic, electron-nuclear, nuclear-external and electron-external
    energies of the native output, added from left to right; the
    two-electron energy is the sum of the electron-electron, exchange and
    exchange-correlation energies, likewise. With floats for all of them
    these are the binary64 sums in that order. *)
Theorem electron_energy_sums h input config p r p' :
  compute h input config p = (inr r, p') ->
  exists job output out,
    supervise h input config p = (inr (job, (true, output)), p') /\
    read_output h output = inr out /\
    (exists kin en next eext s1 s2 one,
       scf_energy out "E_kin" = inr kin /\
       scf_energy out "E_en" = inr en /\
       scf_energy out "E_next" = inr next /\
       scf_energy out "E_eext" = inr eext /\
       Py.add kin en = inr s1 /\
       Py.add s1 next = inr s2 /\
       Py.add s2 eext = inr one /\
       od_properties r !! "scf_one_electron_energy" = Some one) /\
    (exists ee x xc s two,
       scf_energy out "E_ee" = inr ee /\
       scf_energy out "E_x" = inr x /\
       scf_energy out "E_xc" = inr xc /\
       Py.add ee x = inr s /\
       Py.add s xc = inr two /\
       od_properties r !! "scf_two_electron_energy" = Some two /\
       od_properties r !! "scf_xc_energy" = Some xc) /\
    (forall kin en next eext,
       scf_energy out "E_kin" = inr (JFloat kin) ->
       scf_energy out "E_en" = inr (JFloat en) ->
       scf_energy out "E_next" = inr (JFloat next) ->
       scf_energy out "E_eext" = inr (JFloat eext) ->
       od_properties r !! "scf_one_electron_energy" =
         Some (JFloat (kin + en + next + eext)%float)) /\
    (forall ee x xc,
       scf_energy out "E_ee" = inr (JFloat ee) ->
       scf_energy out "E_x" = inr (JFloat x) ->
       scf_energy out "E_xc" = inr (JFloat xc) ->
       od_properties r !! "scf_two_electron_energy" =
         Some (JFloat (ee + x + xc)%float)).
Proof.
  intros H. apply returned_properties in H
    as (job & o & out & occs & props & filled & Hs & Hout & Hp & Hf & -> & _).
  exists job, o, out. split; [exact Hs |]. split; [exact Hout |].
  apply fill_return_result_inr in Hf as (_ & _ & Hk & _).
  rewrite !Hk by discriminate.
  unfold fill_properties in Hp. open_res Hp. injection Hp as <-.
  split; [| split; [| split]].
  - eexists _, _, _, _, _, _, _.
    repeat (split; [first [eassumption | reflexivity] |]). reflexivity.
  - eexists _, _, _, _, _.
    repeat (split; [first [eassumption | reflexivity] |]). reflexivity.
  - intros kin en next eext [= ->] [= ->] [= ->] [= ->].
    match goal with
    | Ha : Py.add (JFloat kin) (JFloat en) = inr ?a,
      Hb : Py.add ?a (JFloat next) = inr ?b,
      Hc : Py.add ?b (JFloat eext) = inr ?c |- _ =>
        injection Ha as <-; injection Hb as <-; injection Hc as <-
    end.
    reflexivity.
  - intros ee x xc [= ->] [= ->] [= ->].
    match goal with
    | Ha : Py.add (JFloat ee) (JFloat x) = inr ?a,
      Hb : Py.add ?a (JFloat xc) = inr ?b |- _ =>
        injection Ha as <-; injection Hb as <-
    end.
    reflexivity.
Qed.

Lemma electron_energy_sums_witness :
  exists r p',
    compute Example.host_ok (Example.job "energy") Example.config Example.start =
      (inr r, p') /\
    od_properties r !! "scf_one_electron_energy" = Some (JFloat (-123.25)) /\
    od_properties r !! "scf_two_electron_energy" = Some (JFloat 37.5).
Proof.
  pose proof (electron_energy_sums Example.host_ok (Example.job "energy")
                Example.config Example.start) as H.
  assert (Hraw : match fst (supervise Example.host_ok (Example.job "energy")
                              Example.config Example.start) with
                 | inr (_, raw) => bool_decide (raw = (true, Example.ran "done" ""))
                 | inl _ => false
                 end = true) by by_running.
  assert (Hb : is_ok (fst (compute Example.host_ok (Example.job "energy")
                             Example.config Example.start)) = true) by by_running.
  destruct (compute Example.host_ok (Example.job "energy") Example.config
              Example.start) as [[e | r] p'];
    simpl in Hb; [discriminate Hb |].
  exists r, p'. split; [reflexivity |].
  destruct (H r p' eq_refl) as (job & output & out & Hs & Hout & _ & _ & H1 & H2).
  rewrite Hs in Hraw. simpl in Hraw. apply bool_decide_eq_true in Hraw.
  injection Hraw as ->.
  assert (Hnative : read_output Example.host_ok (Example.ran "done" "") =
                    inr (Example.native_output (JBool true) (JFloat (-76))))
    by by_running.
  rewrite Hnative in Hout. injection Hout as <-. split.
  - rewrite (H1 76.25 (-199.5) 0 0)%float by by_running. by_running.
  - rewrite (H2 46.75 0 (-9.25))%float by by_running. by_running.
Defined.

(** The atom count of a returned result is the number of atoms of the
    job's molecule, ghost atoms counted with the real ones, whatever the
    native output says; the iteration count is the length of the list of
    cycles of the native output's SCF solver. *)
Theorem atom_and_iteration_counts h input config p r p' :
  compute h input config p = (inr r, p') ->
  od_properties r !! "calcinfo_natom" =
    Some (JInt (Z.of_nat (length (real_atoms (molecule input)) +
                          length (ghost_atoms (molecule input))))) /\
  exists job output out calc solver cycles iterations,
    supervise h input config p = (inr (job, (true, output)), p') /\
    read_output h output = inr out /\
    Py.getitem out "scf_calculation" = inr calc /\
    Py.getitem calc "scf_solver" = inr solver /\
    Py.getitem solver "cycles" = inr cycles /\
    Py.len cycles = inr iterations /\
    od_properties r !! "scf_iterations" = Some (JInt iterations).
Proof.
  intros H. apply returned_properties in H
    as (job & o & out & occs & props & filled & Hs & Hout & Hp & Hf & -> & _).
  apply fill_return_result_inr in Hf as (_ & _ & Hk & _).
  rewrite !Hk by discriminate.
  unfold fill_properties in Hp. open_res Hp. injection Hp as <-. split.
  - rewrite real_ghost_length. unfold masses. rewrite length_map. reflexivity.
  - exists job, o, out. eexists _, _, _, _.
    split; [exact Hs |]. split; [exact Hout |].
    repeat (split; [first [eassumption | reflexivity] |]). reflexivity.
Qed.

Lemma atom_and_iteration_counts_witness :
  exists r p',
    compute Example.host_ok (Example.job "energy") Example.config Example.start =
      (inr r, p') /\
    od_properties r !! "calcinfo_natom" = Some (JInt 4).
Proof.
  pose proof (atom_and_iteration_counts Example.host_ok (Example.job "energy")
                Example.config Example.start) as H.
  assert (Hb : is_ok (fst (compute Example.host_ok (Example.job "energy")
                             Example.config Example.start)) = true) by by_running.
  destruct (compute Example.host_ok (Example.job "energy") Example.config
              Example.start) as [[e | r] p'];
    simpl in Hb; [discriminate Hb |].
  exists r, p'. split; [reflexivity |]. exact (proj1 (H r p' eq_refl)).
Defined.

(** ** The interpreter search path over many calls *)

(** Every call of [build_input] appends the module path again: after [n]
    calls on a host whose driver reports the path [tok], [sys.path] has
    grown by [n] copies of [tok], and [n] queries were spawned. An entry
    that is there already is not recognised. *)
Theorem sys_path_accumulates h input config n p path out tok :
  which h "mrchem" = Some path ->
  popen h [path; "--module"] = Some out ->
  last (PyStr.split out) = Some tok ->
  sys_path (build_input_times h input config n p) = sys_path p ++ replicate n tok /\
  spawned (build_input_times h input config n p) =
    spawned p ++ replicate n [Some path; Some "--module"].
Proof.
  intros Hw Hp Ht. unfold build_input_times.
  induction n as [| n [IHpath IHspawn]]; simpl.
  - now rewrite !app_nil_r.
  - rewrite build_input_run, Hw, Hp, Ht. simpl.
    rewrite IHpath, IHspawn, <- !app_assoc.
    change (tok :: replicate n tok) with (replicate (S n) tok).
    change ([Some path; Some "--module"] :: replicate n [Some path; Some "--module"])
      with (replicate (S n) [Some path; Some "--module"]).
    now rewrite !replicate_S_end.
Qed.

Lemma sys_path_accumulates_witness :
  sys_path (build_input_times Example.host_ok (Example.job "energy") Example.config
              2 Example.start) =
    ["/usr/lib/python3.9"; "/opt/mrchem/lib/python3.9/site-packages";
     "/opt/mrchem/lib/python3.9/site-packages"].
Proof.
  destruct (sys_path_accumulates Example.host_ok (Example.job "energy")
              Example.config 2 Example.start Example.mrchem_path
              ("/opt/mrchem/lib/python3.9/site-packages" +:+ String PyStr.newline "")
              "/opt/mrchem/lib/python3.9/site-packages")
    as (H & _); [reflexivity | by_running | by_running |].
  rewrite H. reflexivity.
Defined.
